(** * netstack TCP header codec (src/tcp.c)

    A shallow embedding of the TCP layer of the BareMetal network stack:
    the decimal port parser, the header initialiser, the two port
    setters, the mutator hook, and the 20-byte pack / unpack pair,
    followed by the properties of these functions.

    C objects reached through a non-const pointer are passed in and
    returned: a function [int f(struct netstack_tcp *tcp, ...)] becomes
    a function returning the [int] together with the header as the call
    leaves it. *)

From Stdlib Require Import ZArith List Ascii String Bool Lia.
From stdpp Require Import base list.
From coqutil Require Import Byte Z.bitblast.
Import ListNotations.

Local Open Scope Z_scope.

(** ** C integer types

    BareMetal OS runs on x86-64 only: [unsigned char] has 8 bits,
    [unsigned int] 32 and [unsigned long int] 64.  Values are kept in
    [Z]; conversions to an unsigned type reduce modulo the type's
    range. *)

Definition UINT_MAX : Z := 4294967295.
Definition ULONG_MAX : Z := 18446744073709551615.

Definition to_uint (x : Z) : Z := x mod (UINT_MAX + 1).
Definition to_ulong (x : Z) : Z := x mod (ULONG_MAX + 1).

(** Storing into an [unsigned char] object, and reading one back. *)
Definition to_uchar (x : Z) : byte := byte.of_Z x.
Definition of_uchar (b : byte) : Z := byte.unsigned b.

(** ** Declarations of the headers the file includes

    [netstack/tcp.h], [netstack/error.h] and [netstack/buffer.h] are
    not part of the sources at hand.  The constants they define and the
    buffer operation they declare are parameters of the development. *)

(** [struct netstack_tcp]: the fields [tcp.c] assigns, in the order of
    [netstack_tcp_init].  [source] and [destination] are [unsigned int]
    (their address is passed as [unsigned int *]); the casts of
    [netstack_tcp_unpack] show [unsigned long int] for the two sequence
    numbers and [unsigned int] for the rest. *)
Record netstack_tcp : Type := mk_tcp {
  source : Z;
  destination : Z;
  sequence : Z;
  acknowledgment : Z;
  data_offset : Z;
  control_bits : Z;
  window_size : Z;
  checksum : Z;
  urgent_pointer : Z
}.

(** A header whose fields hold values of their C types. *)
Definition representable (h : netstack_tcp) : Prop :=
  0 <= source h <= UINT_MAX /\
  0 <= destination h <= UINT_MAX /\
  0 <= sequence h <= ULONG_MAX /\
  0 <= acknowledgment h <= ULONG_MAX /\
  0 <= data_offset h <= UINT_MAX /\
  0 <= control_bits h <= UINT_MAX /\
  0 <= window_size h <= UINT_MAX /\
  0 <= checksum h <= UINT_MAX /\
  0 <= urgent_pointer h <= UINT_MAX.

(** [struct netstack_buffer]: the [size] bytes found at [data]. *)
Record netstack_buffer : Type := mk_buffer {
  data : list byte
}.

Definition size (buffer : netstack_buffer) : Z :=
  Z.of_nat (length (data buffer)).

(** The control-bit constants of [netstack/tcp.h]. *)
Class tcp_h : Type := {
  NETSTACK_TCP_NS : Z;
  NETSTACK_TCP_CWR : Z;
  NETSTACK_TCP_ECE : Z;
  NETSTACK_TCP_URG : Z;
  NETSTACK_TCP_ACK : Z;
  NETSTACK_TCP_PSH : Z;
  NETSTACK_TCP_RST : Z;
  NETSTACK_TCP_SYN : Z;
  NETSTACK_TCP_FIN : Z
}.

(** The error codes of [netstack/error.h]. *)
Class error_h : Type := {
  NETSTACK_ERROR_NONE : Z;
  NETSTACK_ERROR_BAD_FIELD : Z;
  NETSTACK_ERROR_MISSING_DATA : Z
}.

(** [int netstack_buffer_shift(struct netstack_buffer *, size_t)] of
    [netstack/buffer.h]: the returned code and the buffer as the call
    leaves it. *)
Class buffer_h : Type := {
  netstack_buffer_shift : netstack_buffer -> Z -> Z * netstack_buffer
}.

(** [struct netstack_mutator]: the opaque [data] pointer and the
    [mutate_tcp] function pointer, [None] standing for [NULL]. *)
Record netstack_mutator (D : Type) : Type := mk_mutator {
  mutator_data : D;
  mutate_tcp : option (D -> netstack_tcp -> Z * netstack_tcp)
}.
Arguments mk_mutator {D} _ _.
Arguments mutator_data {D} _.
Arguments mutate_tcp {D} _.

(** ** Array accesses on the header bytes *)

(** [header[i]] as an rvalue. *)
Definition load (header : list byte) (i : nat) : Z :=
  of_uchar (nth i header Byte.x00).

(** [header[i] = v]. *)
Definition store (header : list byte) (i : nat) (v : Z) : list byte :=
  <[i := to_uchar v]> header.

(** [if (c) header[i] |= m]. *)
Definition or_if (c : bool) (header : list byte) (i : nat) (m : Z)
  : list byte :=
  if c then store header i (Z.lor (load header i) m) else header.

(** The byte [if (c) b |= m] leaves in an [unsigned char] holding [b]. *)
Definition or_byte (c : bool) (b : byte) (m : Z) : byte :=
  if c then to_uchar (Z.lor (of_uchar b) m) else b.

(** [c & m] used as a condition. *)
Definition test (c m : Z) : bool := negb (Z.land c m =? 0).

(** ** The port parser *)

(** A [char] by its code.  Whether plain [char] is signed does not
    matter to [parse_port]: a code above 127 fails the digit test as a
    large number here and as a negative one there. *)
Definition char (c : ascii) : Z := Z.of_N (N_of_ascii c).

(** [(c >= '0') && (c <= '9')] *)
Definition is_digit (c : ascii) : bool :=
  (char "0" <=? char c) && (char c <=? char "9").

Section Codec.

Context {TCP : tcp_h} {ERR : error_h} {BUF : buffer_h}.

(** The [for] loop of [parse_port] over the characters it visits, with
    the running value of [port]; [None] is the early return. *)
Fixpoint parse_port_loop (str : list ascii) (port : Z) : option Z :=
  match str with
  | [] => Some port
  | c :: str' =>
      if is_digit c then
        let port := to_ulong (port * 10) in
        let port := to_ulong (port + (char c - char "0")) in
        parse_port_loop str' port
      else None
  end.

(** [parse_port(port_ptr, str, str_size)]: [port_ptr] is the value
    stored at the pointer before the call, [str] the [str_size]
    characters at [str]; the result is the return code and the value
    stored at the pointer afterwards. *)
Definition parse_port (port_ptr : Z) (str : list ascii) : Z * Z :=
  let str_size := length str in
  let str_size := if (5 <? str_size)%nat then 5%nat else str_size in
  match parse_port_loop (firstn str_size str) 0 with
  | None => (NETSTACK_ERROR_BAD_FIELD, port_ptr)
  | Some port =>
      if 65535 <? port then (NETSTACK_ERROR_BAD_FIELD, port_ptr)
      else (NETSTACK_ERROR_NONE, to_uint port)
  end.

(** ** Initialiser, setters, mutate *)

Definition netstack_tcp_init (tcp : netstack_tcp) : netstack_tcp :=
  {| source := 0;
     destination := 0;
     sequence := 0;
     acknowledgment := 0;
     data_offset := 5;
     control_bits := 0;
     window_size := 1;
     checksum := 0;
     urgent_pointer := 0 |}.

Definition with_source (tcp : netstack_tcp) (v : Z) : netstack_tcp :=
  mk_tcp v (destination tcp) (sequence tcp) (acknowledgment tcp)
         (data_offset tcp) (control_bits tcp) (window_size tcp)
         (checksum tcp) (urgent_pointer tcp).

Definition with_destination (tcp : netstack_tcp) (v : Z) : netstack_tcp :=
  mk_tcp (source tcp) v (sequence tcp) (acknowledgment tcp)
         (data_offset tcp) (control_bits tcp) (window_size tcp)
         (checksum tcp) (urgent_pointer tcp).

Definition netstack_tcp_set_source (tcp : netstack_tcp) (str : list ascii)
  : Z * netstack_tcp :=
  let (err, port) := parse_port (source tcp) str in
  (err, with_source tcp port).

Definition netstack_tcp_set_destination (tcp : netstack_tcp)
  (str : list ascii) : Z * netstack_tcp :=
  let (err, port) := parse_port (destination tcp) str in
  (err, with_destination tcp port).

Definition netstack_tcp_mutate {D : Type} (tcp : netstack_tcp)
  (mutator : netstack_mutator D) : Z * netstack_tcp :=
  match mutate_tcp mutator with
  | None => (NETSTACK_ERROR_NONE, tcp)
  | Some callback => callback (mutator_data mutator) tcp
  end.

(** ** Pack *)

(** The twenty-odd assignments to [header[0..19]], in program order. *)
Definition write_header (tcp : netstack_tcp) (header : list byte)
  : list byte :=
  (* source port *)
  let header := store header 0 (Z.shiftr (Z.land 0xff00 (source tcp)) 8) in
  let header := store header 1 (Z.shiftr (Z.land 0x00ff (source tcp)) 0) in
  (* destination port *)
  let header := store header 2 (Z.shiftr (Z.land 0xff00 (destination tcp)) 8) in
  let header := store header 3 (Z.shiftr (Z.land 0x00ff (destination tcp)) 0) in
  (* sequence number *)
  let header := store header 4 (Z.shiftr (Z.land 0xff000000 (sequence tcp)) 24) in
  let header := store header 5 (Z.shiftr (Z.land 0x00ff0000 (sequence tcp)) 16) in
  let header := store header 6 (Z.shiftr (Z.land 0x0000ff00 (sequence tcp)) 8) in
  let header := store header 7 (Z.shiftr (Z.land 0x000000ff (sequence tcp)) 0) in
  (* acknowledgment *)
  let header := store header 8 (Z.shiftr (Z.land 0xff000000 (acknowledgment tcp)) 24) in
  let header := store header 9 (Z.shiftr (Z.land 0x00ff0000 (acknowledgment tcp)) 16) in
  let header := store header 10 (Z.shiftr (Z.land 0x0000ff00 (acknowledgment tcp)) 8) in
  let header := store header 11 (Z.shiftr (Z.land 0x000000ff (acknowledgment tcp)) 0) in
  (* zero fields that require bit shifting *)
  let header := store header 12 0 in
  let header := store header 13 0 in
  (* data offset (5 32-bit words) *)
  let header := store header 12 (Z.shiftl 5 4) in
  (* control bits *)
  let header := or_if (test (control_bits tcp) NETSTACK_TCP_NS) header 12 0x01 in
  let header := or_if (test (control_bits tcp) NETSTACK_TCP_CWR) header 13 0x80 in
  let header := or_if (test (control_bits tcp) NETSTACK_TCP_ECE) header 13 0x40 in
  let header := or_if (test (control_bits tcp) NETSTACK_TCP_URG) header 13 0x20 in
  let header := or_if (test (control_bits tcp) NETSTACK_TCP_ACK) header 13 0x10 in
  let header := or_if (test (control_bits tcp) NETSTACK_TCP_PSH) header 13 0x08 in
  let header := or_if (test (control_bits tcp) NETSTACK_TCP_RST) header 13 0x04 in
  let header := or_if (test (control_bits tcp) NETSTACK_TCP_SYN) header 13 0x02 in
  let header := or_if (test (control_bits tcp) NETSTACK_TCP_FIN) header 13 0x01 in
  (* window size *)
  let header := store header 14 (Z.shiftr (Z.land (window_size tcp) 0xff00) 8) in
  let header := store header 15 (Z.shiftr (Z.land (window_size tcp) 0x00ff) 0) in
  (* checksum placeholder *)
  let header := store header 16 0 in
  let header := store header 17 0 in
  (* urgent pointer *)
  let header := store header 18 (Z.shiftr (Z.land (urgent_pointer tcp) 0xff00) 8) in
  let header := store header 19 (Z.shiftr (Z.land (urgent_pointer tcp) 0x00ff) 0) in
  header.

(** [netstack_tcp_pack(tcp, buffer)]: the return code, the header and
    the buffer after the call. *)
Definition netstack_tcp_pack (tcp : netstack_tcp) (buffer : netstack_buffer)
  : Z * netstack_tcp * netstack_buffer :=
  let (err, buffer) := netstack_buffer_shift buffer 20 in
  if negb (err =? 0) then (err, tcp, buffer)
  else
    let header := data buffer in
    (NETSTACK_ERROR_NONE, tcp, mk_buffer (write_header tcp header)).

(** ** Unpack *)

(** [x << n] computed in [unsigned int] and in [unsigned long int]. *)
Definition shl_uint (x : Z) (n : Z) : Z := to_uint (Z.shiftl x n).
Definition shl_ulong (x : Z) (n : Z) : Z := to_ulong (Z.shiftl x n).

(** [if (c) bits |= flag]. *)
Definition set_if (c : bool) (bits flag : Z) : Z :=
  if c then Z.lor bits flag else bits.

(** The decoding assignments of [netstack_tcp_unpack], in program
    order. *)
Definition read_header (header : list byte) : netstack_tcp :=
  let source := 0 in
  let source := Z.lor source (shl_uint (load header 0) 8) in
  let source := Z.lor source (shl_uint (load header 1) 0) in
  let destination := 0 in
  let destination := Z.lor destination (shl_uint (load header 2) 8) in
  let destination := Z.lor destination (shl_uint (load header 3) 0) in
  let sequence := 0 in
  let sequence := Z.lor sequence (shl_ulong (load header 4) 24) in
  let sequence := Z.lor sequence (shl_ulong (load header 5) 16) in
  let sequence := Z.lor sequence (shl_ulong (load header 6) 8) in
  let sequence := Z.lor sequence (shl_ulong (load header 7) 0) in
  let acknowledgment := 0 in
  let acknowledgment := Z.lor acknowledgment (shl_ulong (load header 8) 24) in
  let acknowledgment := Z.lor acknowledgment (shl_ulong (load header 9) 16) in
  let acknowledgment := Z.lor acknowledgment (shl_ulong (load header 10) 8) in
  let acknowledgment := Z.lor acknowledgment (shl_ulong (load header 11) 0) in
  let data_offset := to_uint (Z.shiftr (load header 12) 4) in
  let control_bits := 0 in
  let control_bits := set_if (test (load header 12) 0x01) control_bits NETSTACK_TCP_NS in
  let control_bits := set_if (test (load header 13) 0x80) control_bits NETSTACK_TCP_CWR in
  let control_bits := set_if (test (load header 13) 0x40) control_bits NETSTACK_TCP_ECE in
  let control_bits := set_if (test (load header 13) 0x20) control_bits NETSTACK_TCP_URG in
  let control_bits := set_if (test (load header 13) 0x10) control_bits NETSTACK_TCP_ACK in
  let control_bits := set_if (test (load header 13) 0x08) control_bits NETSTACK_TCP_PSH in
  let control_bits := set_if (test (load header 13) 0x04) control_bits NETSTACK_TCP_RST in
  let control_bits := set_if (test (load header 13) 0x02) control_bits NETSTACK_TCP_SYN in
  let control_bits := set_if (test (load header 13) 0x01) control_bits NETSTACK_TCP_FIN in
  let window_size := 0 in
  let window_size := Z.lor window_size (shl_uint (load header 14) 8) in
  let window_size := Z.lor window_size (shl_uint (load header 15) 0) in
  let checksum := 0 in
  let checksum := Z.lor checksum (shl_uint (load header 16) 8) in
  let checksum := Z.lor checksum (shl_uint (load header 17) 0) in
  let urgent_pointer := 0 in
  let urgent_pointer := Z.lor urgent_pointer (shl_uint (load header 18) 8) in
  let urgent_pointer := Z.lor urgent_pointer (shl_uint (load header 19) 0) in
  {| source := source;
     destination := destination;
     sequence := sequence;
     acknowledgment := acknowledgment;
     data_offset := data_offset;
     control_bits := control_bits;
     window_size := window_size;
     checksum := checksum;
     urgent_pointer := urgent_pointer |}.

(** [netstack_tcp_unpack(tcp, buffer)]: the return code and the header
    after the call. *)
Definition netstack_tcp_unpack (tcp : netstack_tcp)
  (buffer : netstack_buffer) : Z * netstack_tcp :=
  if size buffer <? 20 then (NETSTACK_ERROR_MISSING_DATA, tcp)
  else
    let header := data buffer in
    (NETSTACK_ERROR_NONE, read_header header).

(** Pack [h] in front of [buffer], then unpack the result into [tcp]:
    the code and the header unpack leaves. *)
Definition roundtrip (h tcp : netstack_tcp) (buffer : netstack_buffer)
  : Z * netstack_tcp :=
  let '(_, _, packed) := netstack_tcp_pack h buffer in
  netstack_tcp_unpack tcp packed.

End Codec.

(** ** Vocabulary of the properties *)

(** The number a string of decimal digits denotes, by position. *)
Fixpoint decimal_value (str : list ascii) : Z :=
  match str with
  | [] => 0
  | c :: str' =>
      (char c - char "0") * 10 ^ Z.of_nat (length str') + decimal_value str'
  end.

(** Every character is one of '0' .. '9'. *)
Definition all_digits (str : list ascii) : bool := forallb is_digit str.

(** The characters [parse_port] consults: the first [min(length, 5)]. *)
Definition consulted (str : list ascii) : list ascii :=
  firstn (Nat.min (length str) 5) str.

(** The inputs [parse_port] is said to reject: a non-digit among the
    consulted characters, or consulted digits worth more than 65535. *)
Definition rejected (str : list ascii) : bool :=
  existsb (fun c => negb (is_digit c)) (consulted str)
  || (65535 <? decimal_value (consulted str)).

Definition flag_if (b : bool) (f : Z) : Z := if b then f else 0.

(** Byte 13 of the wire format, from the eight flags it carries. *)
Definition flag_octet (cwr ece urg ack psh rst syn fin : bool) : Z :=
  flag_if cwr 0x80 + flag_if ece 0x40 + flag_if urg 0x20 + flag_if ack 0x10
  + flag_if psh 0x08 + flag_if rst 0x04 + flag_if syn 0x02 + flag_if fin 0x01.

(** The 20 bytes of the wire format for the fields of [h], the nine
    booleans telling which flags are on. *)
Definition layout (h : netstack_tcp)
  (ns cwr ece urg ack psh rst syn fin : bool) : list byte :=
  [ to_uchar (source h / 256); to_uchar (source h);
    to_uchar (destination h / 256); to_uchar (destination h);
    to_uchar (sequence h / 16777216); to_uchar (sequence h / 65536);
    to_uchar (sequence h / 256); to_uchar (sequence h);
    to_uchar (acknowledgment h / 16777216); to_uchar (acknowledgment h / 65536);
    to_uchar (acknowledgment h / 256); to_uchar (acknowledgment h);
    to_uchar (0x50 + flag_if ns 1);
    to_uchar (flag_octet cwr ece urg ack psh rst syn fin);
    to_uchar (window_size h / 256); to_uchar (window_size h);
    Byte.x00; Byte.x00;
    to_uchar (urgent_pointer h / 256); to_uchar (urgent_pointer h) ].

(** What packing makes of 20 header bytes that were unpacked: byte 12
    becomes 0x50 plus its own bit 0, bytes 16 and 17 become zero, the
    other bytes stay. *)
Definition canonical (header : list byte) : list byte :=
  let header := store header 12 (0x50 + Z.land (load header 12) 0x01) in
  let header := store header 16 0 in
  let header := store header 17 0 in
  header.

Section Vocabulary.

Context {TCP : tcp_h} {ERR : error_h} {BUF : buffer_h}.

(** The nine flags, in the order [tcp.c] visits them. *)
Definition flags : list Z :=
  [NETSTACK_TCP_NS; NETSTACK_TCP_CWR; NETSTACK_TCP_ECE; NETSTACK_TCP_URG;
   NETSTACK_TCP_ACK; NETSTACK_TCP_PSH; NETSTACK_TCP_RST; NETSTACK_TCP_SYN;
   NETSTACK_TCP_FIN].

Fixpoint pairwise_disjoint (l : list Z) : bool :=
  match l with
  | [] => true
  | f :: l' => forallb (fun g => Z.land f g =? 0) l' && pairwise_disjoint l'
  end.

(** What [tcp.c] relies on from the flag constants: each one is a
    non-empty set of bits and no two of them overlap. *)
Definition distinct_flags : Prop :=
  forallb (fun f => negb (f =? 0)) flags && pairwise_disjoint flags = true.

(** A combination of the nine flags: the union of the chosen ones. *)
Definition combination (ns cwr ece urg ack psh rst syn fin : bool) : Z :=
  Z.lor (flag_if ns NETSTACK_TCP_NS)
  (Z.lor (flag_if cwr NETSTACK_TCP_CWR)
  (Z.lor (flag_if ece NETSTACK_TCP_ECE)
  (Z.lor (flag_if urg NETSTACK_TCP_URG)
  (Z.lor (flag_if ack NETSTACK_TCP_ACK)
  (Z.lor (flag_if psh NETSTACK_TCP_PSH)
  (Z.lor (flag_if rst NETSTACK_TCP_RST)
  (Z.lor (flag_if syn NETSTACK_TCP_SYN)
         (flag_if fin NETSTACK_TCP_FIN)))))))).

(** The union of all nine flags, and the masks made of their bits only. *)
Definition all_flags : Z := combination true true true true true true true true true.

Definition only_flag_bits (bits : Z) : Prop := Z.land bits all_flags = bits.

(** The field widths of the wire format. *)
Definition field_widths (h : netstack_tcp) : Prop :=
  source h <= 65535 /\
  destination h <= 65535 /\
  window_size h <= 65535 /\
  checksum h <= 65535 /\
  urgent_pointer h <= 65535 /\
  sequence h <= 4294967295 /\
  acknowledgment h <= 4294967295 /\
  data_offset h <= 15 /\
  only_flag_bits (control_bits h).

(** The fields pack writes out fit the width the wire gives them. *)
Definition fits_wire (h : netstack_tcp) : Prop :=
  0 <= source h <= 65535 /\
  0 <= destination h <= 65535 /\
  0 <= sequence h <= 4294967295 /\
  0 <= acknowledgment h <= 4294967295 /\
  0 <= window_size h <= 65535 /\
  0 <= urgent_pointer h <= 65535.

(** The bytes pack writes for [h]: the layout, with the flags its nine
    tests find in [control_bits]. *)
Definition wire_bytes (h : netstack_tcp) : list byte :=
  layout h
    (test (control_bits h) NETSTACK_TCP_NS)
    (test (control_bits h) NETSTACK_TCP_CWR)
    (test (control_bits h) NETSTACK_TCP_ECE)
    (test (control_bits h) NETSTACK_TCP_URG)
    (test (control_bits h) NETSTACK_TCP_ACK)
    (test (control_bits h) NETSTACK_TCP_PSH)
    (test (control_bits h) NETSTACK_TCP_RST)
    (test (control_bits h) NETSTACK_TCP_SYN)
    (test (control_bits h) NETSTACK_TCP_FIN).

(** What unpack reads back from those bytes: every field reduced to
    its width on the wire, the flags found by the tests, offset 5 and
    checksum 0. *)
Definition decoded (h : netstack_tcp) : netstack_tcp :=
  {| source := source h mod 65536;
     destination := destination h mod 65536;
     sequence := sequence h mod 4294967296;
     acknowledgment := acknowledgment h mod 4294967296;
     data_offset := 5;
     control_bits :=
       combination
         (test (control_bits h) NETSTACK_TCP_NS)
         (test (control_bits h) NETSTACK_TCP_CWR)
         (test (control_bits h) NETSTACK_TCP_ECE)
         (test (control_bits h) NETSTACK_TCP_URG)
         (test (control_bits h) NETSTACK_TCP_ACK)
         (test (control_bits h) NETSTACK_TCP_PSH)
         (test (control_bits h) NETSTACK_TCP_RST)
         (test (control_bits h) NETSTACK_TCP_SYN)
         (test (control_bits h) NETSTACK_TCP_FIN);
     window_size := window_size h mod 65536;
     checksum := 0;
     urgent_pointer := urgent_pointer h mod 65536 |}.

(** The codes for the two failures differ from the code for success. *)
Definition distinct_errors : Prop :=
  NETSTACK_ERROR_BAD_FIELD <> NETSTACK_ERROR_NONE
  /\ NETSTACK_ERROR_MISSING_DATA <> NETSTACK_ERROR_NONE.

(** Modelled from the spec: [netstack_buffer_shift] (buffer.c is not
    among the sources).  A shift by [n] that reports success (code 0)
    has grown the region by [n] bytes inserted at the front, the
    existing bytes following in their order. *)
Definition shift_inserts_front : Prop :=
  forall buffer n buffer',
    0 <= n ->
    netstack_buffer_shift buffer n = (0, buffer') ->
    exists front,
      length front = Z.to_nat n /\ data buffer' = front ++ data buffer.

End Vocabulary.

(** ** A concrete environment, to run the model

    The flags as the 9-bit field the wire format spreads over bytes 12
    and 13, three distinct error codes, and a buffer that can hold up to
    [capacity] bytes: a shift beyond it fails with code 12. *)

Definition wire_flags : tcp_h :=
  {| NETSTACK_TCP_NS := 0x100;
     NETSTACK_TCP_CWR := 0x080;
     NETSTACK_TCP_ECE := 0x040;
     NETSTACK_TCP_URG := 0x020;
     NETSTACK_TCP_ACK := 0x010;
     NETSTACK_TCP_PSH := 0x008;
     NETSTACK_TCP_RST := 0x004;
     NETSTACK_TCP_SYN := 0x002;
     NETSTACK_TCP_FIN := 0x001 |}.

Definition sample_errors : error_h :=
  {| NETSTACK_ERROR_NONE := 0;
     NETSTACK_ERROR_BAD_FIELD := 1;
     NETSTACK_ERROR_MISSING_DATA := 2 |}.

Definition bounded_shift (capacity : Z) : buffer_h :=
  {| netstack_buffer_shift := fun buffer n =>
       if capacity <? size buffer + n then (12, buffer)
       else (0, mk_buffer (repeat Byte.x00 (Z.to_nat n) ++ data buffer)) |}.

Definition empty_buffer : netstack_buffer := mk_buffer [].

Definition zero_buffer (n : nat) : netstack_buffer :=
  mk_buffer (repeat Byte.x00 n).

Definition digits (s : string) : list ascii := list_ascii_of_string s.

(** Twenty bytes as they may arrive: offset 6, a reserved bit and NS
    set in byte 12, PSH and ACK in byte 13, a checksum of 0xbeef. *)
Definition received_segment : list byte :=
  [ Byte.x1f; Byte.x90; Byte.x00; Byte.x16;
    Byte.xde; Byte.xad; Byte.xbe; Byte.xef;
    Byte.x00; Byte.x00; Byte.x00; Byte.x2a;
    Byte.x65; Byte.x18; Byte.xff; Byte.xff;
    Byte.xbe; Byte.xef; Byte.x00; Byte.x09 ].

(** A mutator callback: stores its datum as the window size and
    returns code 7. *)
Definition window_callback (d : Z) (tcp : netstack_tcp) : Z * netstack_tcp :=
  (7, mk_tcp (source tcp) (destination tcp) (sequence tcp)
             (acknowledgment tcp) (data_offset tcp) (control_bits tcp)
             d (checksum tcp) (urgent_pointer tcp)).

(** Headers to run the codec on.  [syn_ack_header] is within the widths
    of the wire but for its offset and checksum; [wide_port_header]
    holds a source port of 17 bits, [wide_window_header] a window of 17
    bits: both are values of the C types of their fields. *)
Definition syn_ack_header : netstack_tcp :=
  mk_tcp 80 443 305419896 2271560481 9 0x012 1234 48879 7.

Definition wide_port_header : netstack_tcp :=
  mk_tcp 65536 443 1 0 5 0 1 0 0.

Definition wide_window_header : netstack_tcp :=
  mk_tcp 0 0 0 0 5 0 70000 0 0.

(** ** The model at work *)

Example parse_port_8080 :
  @parse_port sample_errors 7 (digits "8080") = (0, 8080).
Proof. reflexivity. Qed.

Example parse_port_70000 :
  @parse_port sample_errors 7 (digits "70000") = (1, 7).
Proof. reflexivity. Qed.

Example parse_port_8080x :
  @parse_port sample_errors 7 (digits "8080x") = (1, 7).
Proof. reflexivity. Qed.

Example parse_port_808099 :
  @parse_port sample_errors 7 (digits "808099") = (1, 7).
Proof. reflexivity. Qed.

Example parse_port_123456 :
  @parse_port sample_errors 7 (digits "123456") = (0, 12345).
Proof. reflexivity. Qed.

Example parse_port_empty :
  @parse_port sample_errors 7 (digits "") = (0, 0).
Proof. reflexivity. Qed.

Example pack_on_full_buffer :
  @netstack_tcp_pack wire_flags sample_errors (bounded_shift 10)
    syn_ack_header empty_buffer
  = (12, syn_ack_header, empty_buffer).
Proof. reflexivity. Qed.

Example pack_syn_ack :
  data (snd (@netstack_tcp_pack wire_flags sample_errors (bounded_shift 1500)
               syn_ack_header (mk_buffer [Byte.xff])))
  = [ Byte.x00; Byte.x50; Byte.x01; Byte.xbb;
      Byte.x12; Byte.x34; Byte.x56; Byte.x78;
      Byte.x87; Byte.x65; Byte.x43; Byte.x21;
      Byte.x50; Byte.x12; Byte.x04; Byte.xd2;
      Byte.x00; Byte.x00; Byte.x00; Byte.x07; Byte.xff ].
Proof. vm_compute. reflexivity. Qed.

Example unpack_syn_ack :
  @roundtrip wire_flags sample_errors (bounded_shift 1500)
    syn_ack_header wide_port_header empty_buffer
  = (0, mk_tcp 80 443 305419896 2271560481 5 0x012 1234 0 7).
Proof. vm_compute. reflexivity. Qed.

Example mutate_then_pack :
  let tcp := snd (@netstack_tcp_mutate sample_errors Z syn_ack_header
                    (mk_mutator 513 (Some window_callback))) in
  firstn 2 (skipn 14
    (data (snd (@netstack_tcp_pack wire_flags sample_errors
                  (bounded_shift 1500) tcp empty_buffer))))
  = [ Byte.x02; Byte.x01 ].
Proof. vm_compute. reflexivity. Qed.

(** ** Properties of the port parser *)

Section ParsePort.

Context {ERR : error_h}.

Lemma is_digit_range (c : ascii) :
  is_digit c = true -> 0 <= char c - char "0" <= 9.
Proof.
  unfold is_digit. intros H.
  apply andb_prop in H. destruct H as [Hlo Hhi].
  apply Z.leb_le in Hlo. apply Z.leb_le in Hhi.
  change (char "0") with 48 in *. change (char "9") with 57 in *. lia.
Qed.

Lemma decimal_value_nonneg (str : list ascii) :
  all_digits str = true -> 0 <= decimal_value str.
Proof.
  induction str as [|c str IH]; simpl; intros H; [lia|].
  apply andb_prop in H. destruct H as [Hc Hs].
  apply is_digit_range in Hc. specialize (IH Hs).
  assert (0 < 10 ^ Z.of_nat (length str)) by (apply Z.pow_pos_nonneg; lia).
  nia.
Qed.

Lemma decimal_value_bound (str : list ascii) :
  all_digits str = true -> decimal_value str < 10 ^ Z.of_nat (length str).
Proof.
  induction str as [|c str IH]; intros H.
  - simpl. lia.
  - simpl in H. apply andb_prop in H. destruct H as [Hc Hs].
    apply is_digit_range in Hc. specialize (IH Hs).
    cbn [decimal_value length]. rewrite Nat2Z.inj_succ, Z.pow_succ_r by lia.
    nia.
Qed.

(** The loop computes the positional value on top of what it has
    accumulated, as long as the total fits an [unsigned long int]. *)
Lemma parse_port_loop_digits (str : list ascii) :
  forall port,
    all_digits str = true ->
    0 <= port ->
    port * 10 ^ Z.of_nat (length str) + decimal_value str <= ULONG_MAX ->
    parse_port_loop str port
    = Some (port * 10 ^ Z.of_nat (length str) + decimal_value str).
Proof.
  induction str as [|c str IH]; intros port Hd Hp Hmax.
  - simpl. f_equal. lia.
  - simpl in Hd. apply andb_prop in Hd. destruct Hd as [Hc Hs].
    cbn [parse_port_loop]. rewrite Hc.
    pose proof (is_digit_range c Hc) as Hr.
    pose proof (decimal_value_nonneg str Hs) as Hn.
    cbn [decimal_value length] in Hmax |- *.
    rewrite Nat2Z.inj_succ, Z.pow_succ_r in Hmax |- * by lia.
    assert (Hpow : 1 <= 10 ^ Z.of_nat (length str))
      by (pose proof (Z.pow_pos_nonneg 10 (Z.of_nat (length str))); lia).
    assert (H10 : to_ulong (port * 10) = port * 10).
    { unfold to_ulong. apply Z.mod_small. nia. }
    rewrite H10.
    assert (H11 : to_ulong (port * 10 + (char c - char "0"))
                  = port * 10 + (char c - char "0")).
    { unfold to_ulong. apply Z.mod_small. nia. }
    rewrite H11.
    rewrite IH; [f_equal; ring | assumption | lia | ].
    replace ((port * 10 + (char c - char "0")) * 10 ^ Z.of_nat (length str)
             + decimal_value str)
      with (port * (10 * 10 ^ Z.of_nat (length str))
            + ((char c - char "0") * 10 ^ Z.of_nat (length str)
               + decimal_value str)) by ring.
    exact Hmax.
Qed.

(** A character that is no digit ends the loop with the early return,
    whatever has been accumulated. *)
Lemma parse_port_loop_non_digit (str : list ascii) :
  forall port, all_digits str = false -> parse_port_loop str port = None.
Proof.
  induction str as [|c str IH]; intros port H; [discriminate|].
  simpl in H. cbn [parse_port_loop].
  destruct (is_digit c); [|reflexivity].
  apply IH. exact H.
Qed.

Lemma existsb_non_digit (str : list ascii) :
  existsb (fun c => negb (is_digit c)) str = negb (all_digits str).
Proof.
  induction str as [|c str IH]; [reflexivity|].
  simpl. rewrite IH. destruct (is_digit c); reflexivity.
Qed.

(** The clamp of [str_size] selects the consulted characters. *)
Lemma clamp_consulted (str : list ascii) :
  firstn (if (5 <? length str)%nat then 5%nat else length str) str
  = consulted str.
Proof.
  unfold consulted. f_equal.
  destruct (Nat.ltb_spec 5 (length str)); lia.
Qed.

Lemma consulted_length (str : list ascii) :
  (length (consulted str) <= 5)%nat.
Proof. unfold consulted. rewrite length_firstn. lia. Qed.

Lemma five_digits_fit (str : list ascii) :
  (length str <= 5)%nat -> all_digits str = true ->
  0 <= decimal_value str <= 99999.
Proof.
  intros Hl Hd. split; [apply decimal_value_nonneg; exact Hd|].
  pose proof (decimal_value_bound str Hd) as Hb.
  assert (10 ^ Z.of_nat (length str) <= 10 ^ 5)
    by (apply Z.pow_le_mono_r; lia).
  change (10 ^ 5) with 100000 in *. lia.
Qed.

(** [parse_port] in one equation. *)
Lemma parse_port_spec (port_ptr : Z) (str : list ascii) :
  parse_port port_ptr str
  = if rejected str then (NETSTACK_ERROR_BAD_FIELD, port_ptr)
    else (NETSTACK_ERROR_NONE, decimal_value (consulted str)).
Proof.
  unfold parse_port, rejected. rewrite clamp_consulted, existsb_non_digit.
  destruct (all_digits (consulted str)) eqn:Hd; cbn [negb orb].
  - pose proof (five_digits_fit _ (consulted_length str) Hd) as Hv.
    rewrite parse_port_loop_digits;
      [ | exact Hd | lia | unfold ULONG_MAX; lia ].
    rewrite Z.mul_0_l, Z.add_0_l.
    destruct (65535 <? decimal_value (consulted str)) eqn:Hgt; [reflexivity|].
    apply Z.ltb_ge in Hgt. f_equal.
    unfold to_uint, UINT_MAX. apply Z.mod_small. lia.
  - rewrite parse_port_loop_non_digit by exact Hd. reflexivity.
Qed.

Lemma with_source_same (tcp : netstack_tcp) :
  with_source tcp (source tcp) = tcp.
Proof. destruct tcp; reflexivity. Qed.

Lemma with_destination_same (tcp : netstack_tcp) :
  with_destination tcp (destination tcp) = tcp.
Proof. destruct tcp; reflexivity. Qed.

Lemma consulted_short (str : list ascii) :
  (length str <= 5)%nat -> consulted str = str.
Proof.
  intros H. unfold consulted.
  rewrite Nat.min_l by exact H. apply firstn_all.
Qed.

Lemma consulted_long (pre suf : list ascii) :
  length pre = 5%nat -> consulted (pre ++ suf) = pre.
Proof.
  intros H. unfold consulted.
  rewrite length_app, H, Nat.min_r by lia.
  rewrite <- H. rewrite firstn_app, Nat.sub_diag, firstn_all. simpl.
  apply app_nil_r.
Qed.

Lemma accepted (str : list ascii) :
  all_digits (consulted str) = true ->
  decimal_value (consulted str) <= 65535 ->
  rejected str = false.
Proof.
  intros Hd Hv. unfold rejected.
  rewrite existsb_non_digit, Hd. simpl. apply Z.ltb_ge. exact Hv.
Qed.

(** C4: a string of one to five decimal digits worth at most 65535 is
    accepted by [parse_port], which stores exactly that value and
    returns [NETSTACK_ERROR_NONE]; so do both setters, into [source]
    and into [destination]. *)
Theorem parse_port_accepts_ports (tcp : netstack_tcp) (port_ptr : Z)
  (str : list ascii) :
  (1 <= length str <= 5)%nat ->
  all_digits str = true ->
  decimal_value str <= 65535 ->
  parse_port port_ptr str = (NETSTACK_ERROR_NONE, decimal_value str)
  /\ netstack_tcp_set_source tcp str
     = (NETSTACK_ERROR_NONE, with_source tcp (decimal_value str))
  /\ netstack_tcp_set_destination tcp str
     = (NETSTACK_ERROR_NONE, with_destination tcp (decimal_value str)).
Proof.
  intros Hlen Hd Hv.
  assert (Hc : consulted str = str) by (apply consulted_short; lia).
  assert (Hp : forall p,
             parse_port p str = (NETSTACK_ERROR_NONE, decimal_value str)).
  { intros p. rewrite parse_port_spec, accepted; rewrite Hc; auto. }
  unfold netstack_tcp_set_source, netstack_tcp_set_destination.
  rewrite !Hp. auto.
Qed.

(** C5: [parse_port] returns [NETSTACK_ERROR_BAD_FIELD] and leaves the
    destination as it was exactly when the input is [rejected] (a
    non-digit among the first [min(length, 5)] characters, or those
    digits worth more than 65535); on every other input it returns
    [NETSTACK_ERROR_NONE].  Each setter behaves the same on its field
    and leaves the header as it was on failure. *)
Theorem parse_port_bad_field (tcp : netstack_tcp) (port_ptr : Z)
  (str : list ascii) :
  parse_port port_ptr str
  = (if rejected str then (NETSTACK_ERROR_BAD_FIELD, port_ptr)
     else (NETSTACK_ERROR_NONE, decimal_value (consulted str)))
  /\ netstack_tcp_set_source tcp str
     = (if rejected str then (NETSTACK_ERROR_BAD_FIELD, tcp)
        else (NETSTACK_ERROR_NONE,
              with_source tcp (decimal_value (consulted str))))
  /\ netstack_tcp_set_destination tcp str
     = (if rejected str then (NETSTACK_ERROR_BAD_FIELD, tcp)
        else (NETSTACK_ERROR_NONE,
              with_destination tcp (decimal_value (consulted str)))).
Proof.
  unfold netstack_tcp_set_source, netstack_tcp_set_destination.
  rewrite !parse_port_spec.
  destruct (rejected str);
    rewrite ?with_source_same, ?with_destination_same; auto.
Qed.

(** C6: only the first five characters are consulted.  When they are
    digits worth at most 65535, a longer string is accepted with the
    value of those five digits, whatever follows them. *)
Theorem parse_port_ignores_tail (port_ptr : Z) (pre suf : list ascii) :
  length pre = 5%nat ->
  suf <> [] ->
  all_digits pre = true ->
  decimal_value pre <= 65535 ->
  parse_port port_ptr (pre ++ suf)
  = (NETSTACK_ERROR_NONE, decimal_value pre).
Proof.
  intros Hlen _ Hd Hv.
  rewrite parse_port_spec, accepted; rewrite consulted_long; auto.
Qed.

End ParsePort.

Lemma parse_port_accepts_ports_witness :
  let str := digits "65535" in
  let tcp := netstack_tcp_init (mk_tcp 9 9 9 9 9 9 9 9 9) in
  ((1 <= length str <= 5)%nat /\ all_digits str = true
   /\ decimal_value str <= 65535)
  /\ @parse_port sample_errors 7 str = (0, 65535)
  /\ @netstack_tcp_set_source sample_errors tcp str
     = (0, with_source tcp 65535)
  /\ @netstack_tcp_set_destination sample_errors tcp str
     = (0, with_destination tcp 65535).
Proof.
  intros str tcp. split.
  - split; [simpl; lia | split; [reflexivity | vm_compute; discriminate]].
  - apply (parse_port_accepts_ports (ERR := sample_errors) tcp 7 str).
    + simpl; lia.
    + reflexivity.
    + vm_compute; discriminate.
Defined.

Lemma parse_port_ignores_tail_witness :
  let pre := digits "08080" in
  let suf := digits "99x" in
  (length pre = 5%nat /\ suf <> [] /\ all_digits pre = true
   /\ decimal_value pre <= 65535)
  /\ @parse_port sample_errors 7 (digits "0808099x") = (0, 8080).
Proof.
  intros pre suf. split.
  - split; [reflexivity | split; [discriminate | split;
      [reflexivity | vm_compute; discriminate]]].
  - apply (parse_port_ignores_tail (ERR := sample_errors) 7 pre suf).
    + reflexivity.
    + discriminate.
    + reflexivity.
    + vm_compute; discriminate.
Defined.

(** ** Error paths of unpack, mutate and pack *)

Section ErrorPaths.

Context {TCP : tcp_h} {ERR : error_h} {BUF : buffer_h}.

(** C7: with fewer than 20 bytes in the buffer, [netstack_tcp_unpack]
    returns [NETSTACK_ERROR_MISSING_DATA] and the header keeps every
    field; with 20 bytes or more it returns [NETSTACK_ERROR_NONE] and
    the header is whatever the bytes decode to, unchecked. *)
Theorem unpack_missing_data (tcp : netstack_tcp) (buffer : netstack_buffer) :
  (size buffer < 20 ->
   netstack_tcp_unpack tcp buffer = (NETSTACK_ERROR_MISSING_DATA, tcp))
  /\ (20 <= size buffer ->
      netstack_tcp_unpack tcp buffer
      = (NETSTACK_ERROR_NONE, read_header (data buffer))).
Proof.
  unfold netstack_tcp_unpack. split; intros H.
  - apply Z.ltb_lt in H. rewrite H. reflexivity.
  - apply Z.ltb_ge in H. rewrite H. reflexivity.
Qed.

(** C8: without a callback [netstack_tcp_mutate] returns
    [NETSTACK_ERROR_NONE] and the header keeps every field; with a
    callback, the code and the header are the callback's, as they
    are. *)
Theorem mutate_propagates {D : Type} (tcp : netstack_tcp)
  (mutator : netstack_mutator D) :
  (mutate_tcp mutator = None ->
   netstack_tcp_mutate tcp mutator = (NETSTACK_ERROR_NONE, tcp))
  /\ (forall callback,
        mutate_tcp mutator = Some callback ->
        netstack_tcp_mutate tcp mutator
        = callback (mutator_data mutator) tcp).
Proof.
  unfold netstack_tcp_mutate. split.
  - intros H. rewrite H. reflexivity.
  - intros callback H. rewrite H. reflexivity.
Qed.

(** C9: when the shift by 20 returns a non-zero code,
    [netstack_tcp_pack] returns that code; the buffer is as the shift
    left it and the header as it was.  When the shift returns zero,
    pack returns [NETSTACK_ERROR_NONE], whatever the header holds. *)
Theorem pack_shift_failure (tcp : netstack_tcp)
  (buffer buffer' : netstack_buffer) (err : Z) :
  netstack_buffer_shift buffer 20 = (err, buffer') ->
  (err <> 0 -> netstack_tcp_pack tcp buffer = (err, tcp, buffer'))
  /\ (err = 0 ->
      netstack_tcp_pack tcp buffer
      = (NETSTACK_ERROR_NONE, tcp,
         mk_buffer (write_header tcp (data buffer')))).
Proof.
  intros Hs. unfold netstack_tcp_pack. rewrite Hs. split; intros H.
  - apply Z.eqb_neq in H. rewrite H. reflexivity.
  - subst err. reflexivity.
Qed.

End ErrorPaths.

(** The sample environment meets what the properties below assume. *)

Lemma wire_flags_distinct : @distinct_flags wire_flags.
Proof. reflexivity. Qed.

Lemma sample_errors_distinct : @distinct_errors sample_errors.
Proof. split; discriminate. Qed.

Lemma bounded_shift_inserts_front (capacity : Z) :
  @shift_inserts_front (bounded_shift capacity).
Proof.
  intros buffer n buffer' Hn. cbn [netstack_buffer_shift bounded_shift].
  destruct (capacity <? size buffer + n); intros H; inversion H.
  exists (repeat Byte.x00 (Z.to_nat n)). split; [apply repeat_length|].
  reflexivity.
Qed.

Lemma unpack_missing_data_witness :
  (size (zero_buffer 19) < 20
   /\ @netstack_tcp_unpack wire_flags sample_errors
        syn_ack_header (zero_buffer 19)
      = (2, syn_ack_header))
  /\ (20 <= size (zero_buffer 20)
      /\ @netstack_tcp_unpack wire_flags sample_errors
           syn_ack_header (zero_buffer 20)
         = (0, @read_header wire_flags (data (zero_buffer 20)))).
Proof.
  split; split.
  - unfold size; simpl; lia.
  - apply (proj1 (unpack_missing_data (TCP := wire_flags)
                    (ERR := sample_errors) syn_ack_header (zero_buffer 19))).
    unfold size; simpl; lia.
  - unfold size; simpl; lia.
  - apply (proj2 (unpack_missing_data (TCP := wire_flags)
                    (ERR := sample_errors) syn_ack_header (zero_buffer 20))).
    unfold size; simpl; lia.
Defined.

Lemma mutate_propagates_witness :
  let silent := mk_mutator 4096 None in
  let active := mk_mutator 4096 (Some window_callback) in
  (mutate_tcp silent = None
   /\ @netstack_tcp_mutate sample_errors Z syn_ack_header silent
      = (0, syn_ack_header))
  /\ (mutate_tcp active = Some window_callback
      /\ @netstack_tcp_mutate sample_errors Z syn_ack_header active
         = window_callback 4096 syn_ack_header).
Proof.
  intros silent active. split; split.
  - reflexivity.
  - apply (proj1 (mutate_propagates (ERR := sample_errors)
                    syn_ack_header silent)).
    reflexivity.
  - reflexivity.
  - apply (proj2 (mutate_propagates (ERR := sample_errors)
                    syn_ack_header active)).
    reflexivity.
Defined.

Lemma pack_shift_failure_witness :
  let full := bounded_shift 10 in
  let roomy := bounded_shift 1500 in
  (@netstack_buffer_shift full empty_buffer 20 = (12, empty_buffer)
   /\ 12 <> 0
   /\ @netstack_tcp_pack wire_flags sample_errors full
        syn_ack_header empty_buffer
      = (12, syn_ack_header, empty_buffer))
  /\ (@netstack_buffer_shift roomy empty_buffer 20 = (0, zero_buffer 20)
      /\ @netstack_tcp_pack wire_flags sample_errors roomy
           syn_ack_header empty_buffer
         = (0, syn_ack_header,
            mk_buffer (@write_header wire_flags syn_ack_header
                         (data (zero_buffer 20))))).
Proof.
  intros full roomy. split.
  - split; [reflexivity | split; [discriminate|]].
    apply (proj1 (pack_shift_failure (TCP := wire_flags)
                    (ERR := sample_errors) (BUF := full)
                    syn_ack_header empty_buffer empty_buffer 12
                    eq_refl)).
    discriminate.
  - split; [reflexivity|].
    apply (proj2 (pack_shift_failure (TCP := wire_flags)
                    (ERR := sample_errors) (BUF := roomy)
                    syn_ack_header empty_buffer (zero_buffer 20) 0
                    eq_refl)).
    reflexivity.
Defined.

(** ** The wire layout *)

Section Wire.

Context {TCP : tcp_h} {ERR : error_h} {BUF : buffer_h}.

Lemma store_here (b : byte) (l : list byte) (v : Z) :
  store (b :: l) 0 v = to_uchar v :: l.
Proof. reflexivity. Qed.

Lemma store_next (b : byte) (l : list byte) (i : nat) (v : Z) :
  store (b :: l) (S i) v = b :: store l i v.
Proof. reflexivity. Qed.

Lemma or_if_here (c : bool) (b : byte) (l : list byte) (m : Z) :
  or_if c (b :: l) 0 m = or_byte c b m :: l.
Proof. destruct c; reflexivity. Qed.

Lemma or_if_next (c : bool) (b : byte) (l : list byte) (i : nat) (m : Z) :
  or_if c (b :: l) (S i) m = b :: or_if c l i m.
Proof. destruct c; reflexivity. Qed.

Lemma wrap_land (x : Z) : byte.wrap x = Z.land x (Z.ones 8).
Proof. unfold byte.wrap. rewrite Z.land_ones by lia. reflexivity. Qed.

Lemma of_to_uchar (x : Z) : of_uchar (to_uchar x) = Z.land x (Z.ones 8).
Proof.
  unfold of_uchar, to_uchar. rewrite byte.unsigned_of_Z. apply wrap_land.
Qed.

Lemma to_uint_land (x : Z) : to_uint x = Z.land x (Z.ones 32).
Proof. unfold to_uint. rewrite Z.land_ones by lia. reflexivity. Qed.

Lemma to_ulong_land (x : Z) : to_ulong x = Z.land x (Z.ones 64).
Proof. unfold to_ulong. rewrite Z.land_ones by lia. reflexivity. Qed.

(** Masking a byte out of a field and shifting it down stores the same
    [unsigned char] as dividing by the weight of that byte. *)
Lemma to_uchar_field (x k : Z) :
  0 <= k ->
  to_uchar (Z.shiftr (Z.land (Z.shiftl (Z.ones 8) k) x) k)
  = to_uchar (x / 2 ^ k).
Proof.
  intros Hk. unfold to_uchar. apply byte.unsigned_inj.
  rewrite !byte.unsigned_of_Z, !wrap_land.
  rewrite <- Z.shiftr_div_pow2 by lia.
  Z.bitblast.
Qed.

Lemma byte_0 (x : Z) : to_uchar (Z.shiftr (Z.land 0xff x) 0) = to_uchar x.
Proof.
  change 0xff with (Z.shiftl (Z.ones 8) 0).
  rewrite to_uchar_field by lia. f_equal. apply Z.div_1_r.
Qed.

Lemma byte_1 (x : Z) :
  to_uchar (Z.shiftr (Z.land 0xff00 x) 8) = to_uchar (x / 256).
Proof. apply (to_uchar_field x 8). lia. Qed.

Lemma byte_2 (x : Z) :
  to_uchar (Z.shiftr (Z.land 0xff0000 x) 16) = to_uchar (x / 65536).
Proof. apply (to_uchar_field x 16). lia. Qed.

Lemma byte_3 (x : Z) :
  to_uchar (Z.shiftr (Z.land 0xff000000 x) 24) = to_uchar (x / 16777216).
Proof. apply (to_uchar_field x 24). lia. Qed.

Lemma octet_12 (ns : bool) :
  or_byte ns (to_uchar (Z.shiftl 5 4)) 0x01 = to_uchar (0x50 + flag_if ns 1).
Proof. destruct ns; reflexivity. Qed.

Lemma octet_13 (cwr ece urg ack psh rst syn fin : bool) :
  or_byte fin (or_byte syn (or_byte rst (or_byte psh (or_byte ack
    (or_byte urg (or_byte ece (or_byte cwr (to_uchar 0) 0x80) 0x40) 0x20)
    0x10) 0x08) 0x04) 0x02) 0x01
  = to_uchar (flag_octet cwr ece urg ack psh rst syn fin).
Proof.
  destruct cwr, ece, urg, ack, psh, rst, syn, fin; reflexivity.
Qed.

(** Pack's assignments turn the 20 bytes at the front of the region
    into the layout of the header, and leave the bytes behind them. *)
Lemma write_header_layout (tcp : netstack_tcp) (front rest : list byte) :
  length front = 20%nat ->
  write_header tcp (front ++ rest) = wire_bytes tcp ++ rest.
Proof.
  intros Hlen.
  do 20 (destruct front as [|? front]; [discriminate Hlen|]).
  destruct front; [|discriminate Hlen].
  unfold write_header, wire_bytes. cbv zeta. cbn [app].
  repeat rewrite ?store_here, ?store_next, ?or_if_here, ?or_if_next.
  rewrite octet_12, octet_13.
  rewrite (Z.land_comm (window_size tcp)), (Z.land_comm (window_size tcp)).
  rewrite (Z.land_comm (urgent_pointer tcp)), (Z.land_comm (urgent_pointer tcp)).
  rewrite !byte_0, !byte_1, !byte_2, !byte_3.
  reflexivity.
Qed.

(** Reading two, respectively four, bytes back gives the field modulo
    the width of its place on the wire. *)
Lemma decode_16 (x : Z) :
  Z.lor (Z.lor 0 (shl_uint (of_uchar (to_uchar (x / 256))) 8))
        (shl_uint (of_uchar (to_uchar x)) 0)
  = x mod 65536.
Proof.
  unfold shl_uint. rewrite !of_to_uchar, !to_uint_land.
  change 256 with (2 ^ 8). change 65536 with (2 ^ 16).
  rewrite <- Z.shiftr_div_pow2, <- Z.land_ones by lia.
  Z.bitblast.
Qed.

Lemma decode_32 (x : Z) :
  Z.lor (Z.lor (Z.lor (Z.lor 0
    (shl_ulong (of_uchar (to_uchar (x / 16777216))) 24))
    (shl_ulong (of_uchar (to_uchar (x / 65536))) 16))
    (shl_ulong (of_uchar (to_uchar (x / 256))) 8))
    (shl_ulong (of_uchar (to_uchar x)) 0)
  = x mod 4294967296.
Proof.
  unfold shl_ulong. rewrite !of_to_uchar, !to_ulong_land.
  change 256 with (2 ^ 8). change 65536 with (2 ^ 16).
  change 16777216 with (2 ^ 24). change 4294967296 with (2 ^ 32).
  rewrite <- !Z.shiftr_div_pow2, <- Z.land_ones by lia.
  Z.bitblast.
Qed.

Lemma decode_offset (ns : bool) :
  to_uint (Z.shiftr (of_uchar (to_uchar (0x50 + flag_if ns 1))) 4) = 5.
Proof. destruct ns; reflexivity. Qed.

Lemma decode_ns (ns : bool) :
  test (of_uchar (to_uchar (0x50 + flag_if ns 1))) 0x01 = ns.
Proof. destruct ns; reflexivity. Qed.

Lemma decode_octet (cwr ece urg ack psh rst syn fin : bool) :
  let octet := of_uchar (to_uchar (flag_octet cwr ece urg ack psh rst syn fin)) in
  test octet 0x80 = cwr /\ test octet 0x40 = ece /\ test octet 0x20 = urg
  /\ test octet 0x10 = ack /\ test octet 0x08 = psh /\ test octet 0x04 = rst
  /\ test octet 0x02 = syn /\ test octet 0x01 = fin.
Proof.
  destruct cwr, ece, urg, ack, psh, rst, syn, fin; vm_compute; tauto.
Qed.

Lemma set_if_flag_if (c : bool) (bits flag : Z) :
  set_if c bits flag = Z.lor bits (flag_if c flag).
Proof. destruct c; simpl; [reflexivity | symmetry; apply Z.lor_0_r]. Qed.

Lemma set_if_combination (ns cwr ece urg ack psh rst syn fin : bool) :
  set_if fin (set_if syn (set_if rst (set_if psh (set_if ack (set_if urg
    (set_if ece (set_if cwr (set_if ns 0 NETSTACK_TCP_NS) NETSTACK_TCP_CWR)
    NETSTACK_TCP_ECE) NETSTACK_TCP_URG) NETSTACK_TCP_ACK) NETSTACK_TCP_PSH)
    NETSTACK_TCP_RST) NETSTACK_TCP_SYN) NETSTACK_TCP_FIN
  = combination ns cwr ece urg ack psh rst syn fin.
Proof.
  rewrite !set_if_flag_if, Z.lor_0_l. unfold combination.
  rewrite <- !Z.lor_assoc. reflexivity.
Qed.

(** Unpack's assignments on a region that starts with a layout. *)
Lemma read_header_layout (h : netstack_tcp)
  (ns cwr ece urg ack psh rst syn fin : bool) (rest : list byte) :
  read_header (layout h ns cwr ece urg ack psh rst syn fin ++ rest)
  = {| source := source h mod 65536;
       destination := destination h mod 65536;
       sequence := sequence h mod 4294967296;
       acknowledgment := acknowledgment h mod 4294967296;
       data_offset := 5;
       control_bits := combination ns cwr ece urg ack psh rst syn fin;
       window_size := window_size h mod 65536;
       checksum := 0;
       urgent_pointer := urgent_pointer h mod 65536 |}.
Proof.
  unfold read_header, load, layout. cbv zeta. cbn [app nth].
  rewrite !decode_16, !decode_32, decode_offset, decode_ns.
  destruct (decode_octet cwr ece urg ack psh rst syn fin)
    as (-> & -> & -> & -> & -> & -> & -> & ->).
  rewrite set_if_combination.
  reflexivity.
Qed.

(** *** The flag constants *)

Ltac flag_facts H :=
  unfold distinct_flags in H;
  cbn [flags forallb pairwise_disjoint] in H;
  repeat match goal with
    | H' : _ && _ = true |- _ => apply andb_prop in H'; destruct H'
    | H' : negb (_ =? 0) = true |- _ =>
        apply negb_true_iff, Z.eqb_neq in H'
    | H' : (Z.land _ _ =? 0) = true |- _ => apply Z.eqb_eq in H'
    | H' : true = true |- _ => clear H'
    end.

Ltac use_disjoint :=
  repeat match goal with
    | H : Z.land ?f ?g = 0 |- context [Z.land ?f ?g] => rewrite H
    | H : Z.land ?f ?g = 0 |- context [Z.land ?g ?f] =>
        rewrite (Z.land_comm g f), H
    end.

Lemma land_flag_if (b : bool) (f g : Z) :
  Z.land (flag_if b f) g = flag_if b (Z.land f g).
Proof. destruct b; reflexivity. Qed.

Lemma flag_if_0 (b : bool) : flag_if b 0 = 0.
Proof. destruct b; reflexivity. Qed.

Lemma test_flag_if (b : bool) (f : Z) :
  f <> 0 -> negb (flag_if b f =? 0) = b.
Proof.
  intros Hf. destruct b; simpl; [|reflexivity].
  apply Z.eqb_neq in Hf. rewrite Hf. reflexivity.
Qed.

Ltac test_flag :=
  unfold test, combination;
  rewrite !Z.land_lor_distr_l, !land_flag_if;
  use_disjoint;
  rewrite Z.land_diag, !flag_if_0, ?Z.lor_0_l, ?Z.lor_0_r;
  apply test_flag_if; assumption.

(** Against a combination of the flags, pack's nine tests tell exactly
    which flags were chosen. *)
Lemma test_combination (ns cwr ece urg ack psh rst syn fin : bool) :
  distinct_flags ->
  let bits := combination ns cwr ece urg ack psh rst syn fin in
  test bits NETSTACK_TCP_NS = ns /\ test bits NETSTACK_TCP_CWR = cwr
  /\ test bits NETSTACK_TCP_ECE = ece /\ test bits NETSTACK_TCP_URG = urg
  /\ test bits NETSTACK_TCP_ACK = ack /\ test bits NETSTACK_TCP_PSH = psh
  /\ test bits NETSTACK_TCP_RST = rst /\ test bits NETSTACK_TCP_SYN = syn
  /\ test bits NETSTACK_TCP_FIN = fin.
Proof.
  intros Hf bits. subst bits. flag_facts Hf.
  repeat split; test_flag.
Qed.

Lemma only_flag_bits_lor (a b : Z) :
  only_flag_bits a -> only_flag_bits b -> only_flag_bits (Z.lor a b).
Proof.
  unfold only_flag_bits. intros Ha Hb.
  rewrite Z.land_lor_distr_l, Ha, Hb. reflexivity.
Qed.

Lemma only_flag_bits_combination (ns cwr ece urg ack psh rst syn fin : bool) :
  only_flag_bits (combination ns cwr ece urg ack psh rst syn fin).
Proof.
  unfold combination.
  repeat apply only_flag_bits_lor;
    unfold only_flag_bits, all_flags, combination, flag_if;
    match goal with |- context [if ?b then _ else _] => destruct b end;
    try reflexivity; Z.bitblast.
Qed.

(** *** Pack, then unpack *)

Lemma layout_length (h : netstack_tcp)
  (ns cwr ece urg ack psh rst syn fin : bool) :
  length (layout h ns cwr ece urg ack psh rst syn fin) = 20%nat.
Proof. reflexivity. Qed.

(** A successful pack puts the wire bytes of the header in front of
    what the buffer held. *)
Lemma pack_wire_bytes (h : netstack_tcp) (buffer : netstack_buffer) :
  shift_inserts_front ->
  fst (netstack_buffer_shift buffer 20) = 0 ->
  netstack_tcp_pack h buffer
  = (NETSTACK_ERROR_NONE, h, mk_buffer (wire_bytes h ++ data buffer)).
Proof.
  intros Hshift Hok. unfold netstack_tcp_pack.
  destruct (netstack_buffer_shift buffer 20) as [err buffer'] eqn:Hs.
  simpl in Hok. subst err. cbn [Z.eqb negb].
  destruct (Hshift buffer 20 buffer' ltac:(lia) Hs) as (front & Hlen & Hdata).
  rewrite Hdata, write_header_layout by exact Hlen. reflexivity.
Qed.

(** Unpack accepts a buffer that starts with wire bytes and decodes
    them. *)
Lemma unpack_wire_bytes (h tcp : netstack_tcp) (rest : list byte) :
  netstack_tcp_unpack tcp (mk_buffer (wire_bytes h ++ rest))
  = (NETSTACK_ERROR_NONE, decoded h).
Proof.
  unfold netstack_tcp_unpack, size. cbn [data].
  unfold wire_bytes at 1. rewrite length_app, layout_length.
  destruct (Z.ltb_spec (Z.of_nat (20 + length rest)) 20) as [H|_]; [lia|].
  unfold wire_bytes. rewrite read_header_layout. reflexivity.
Qed.

Lemma roundtrip_decoded (h tcp : netstack_tcp) (buffer : netstack_buffer) :
  shift_inserts_front ->
  fst (netstack_buffer_shift buffer 20) = 0 ->
  roundtrip h tcp buffer = (NETSTACK_ERROR_NONE, decoded h).
Proof.
  intros Hshift Hok. unfold roundtrip.
  rewrite pack_wire_bytes by assumption. apply unpack_wire_bytes.
Qed.

(** C1, within the widths of the wire: for a header whose ports, window and urgent
    pointer are at most 65535, whose sequence and acknowledgment
    numbers are at most 4294967295 and whose control bits are a
    combination of the nine flags, packing and then unpacking succeeds
    and gives back the source, destination, sequence, acknowledgment,
    window size, urgent pointer and control bits, with data offset 5
    and checksum 0 whatever the header held in these two fields. *)
Theorem pack_unpack_roundtrip (h tcp : netstack_tcp)
  (buffer : netstack_buffer) (ns cwr ece urg ack psh rst syn fin : bool) :
  distinct_flags ->
  shift_inserts_front ->
  fst (netstack_buffer_shift buffer 20) = 0 ->
  fits_wire h ->
  control_bits h = combination ns cwr ece urg ack psh rst syn fin ->
  exists h',
    roundtrip h tcp buffer = (NETSTACK_ERROR_NONE, h')
    /\ source h' = source h
    /\ destination h' = destination h
    /\ sequence h' = sequence h
    /\ acknowledgment h' = acknowledgment h
    /\ window_size h' = window_size h
    /\ urgent_pointer h' = urgent_pointer h
    /\ control_bits h' = control_bits h
    /\ data_offset h' = 5
    /\ checksum h' = 0.
Proof.
  intros Hflags Hshift Hok Hfit Hbits.
  exists (decoded h). split; [apply roundtrip_decoded; assumption|].
  destruct Hfit as (Hs & Hd & Hq & Ha & Hw & Hu).
  unfold decoded; cbn [source destination sequence acknowledgment
    window_size urgent_pointer control_bits data_offset checksum].
  rewrite !Z.mod_small by lia.
  repeat split; try reflexivity.
  rewrite Hbits.
  destruct (test_combination ns cwr ece urg ack psh rst syn fin Hflags)
    as (-> & -> & -> & -> & -> & -> & -> & -> & ->).
  reflexivity.
Qed.

(** *** The bytes of a SYN segment, and the two forced fields *)

Lemma only_syn :
  combination false false false false false false false true false
  = NETSTACK_TCP_SYN.
Proof.
  unfold combination. cbn [flag_if].
  rewrite !Z.lor_0_l. apply Z.lor_0_r.
Qed.

(** C2: the header with source 80, destination 443, sequence 1,
    acknowledgment 0, control bits SYN, window size 1, checksum 0 and
    urgent pointer 0 is packed as the 20 bytes
    00 50 01 BB 00 00 00 01 00 00 00 00 50 02 00 01 00 00 00 00
    at the front of the buffer. *)
Theorem pack_syn_segment (buffer : netstack_buffer) (offset : Z) :
  distinct_flags ->
  shift_inserts_front ->
  fst (netstack_buffer_shift buffer 20) = 0 ->
  let h := mk_tcp 80 443 1 0 offset NETSTACK_TCP_SYN 1 0 0 in
  exists packed,
    netstack_tcp_pack h buffer = (NETSTACK_ERROR_NONE, h, packed)
    /\ firstn 20 (data packed)
       = [ Byte.x00; Byte.x50; Byte.x01; Byte.xbb;
           Byte.x00; Byte.x00; Byte.x00; Byte.x01;
           Byte.x00; Byte.x00; Byte.x00; Byte.x00;
           Byte.x50; Byte.x02; Byte.x00; Byte.x01;
           Byte.x00; Byte.x00; Byte.x00; Byte.x00 ].
Proof.
  intros Hflags Hshift Hok h.
  exists (mk_buffer (wire_bytes h ++ data buffer)).
  split; [apply pack_wire_bytes; assumption|].
  cbn [data]. unfold wire_bytes, h. cbn [control_bits].
  pose proof (test_combination false false false false false false false
                true false Hflags) as Htests.
  cbv zeta in Htests. rewrite only_syn in Htests.
  destruct Htests as (-> & -> & -> & -> & -> & -> & -> & -> & ->).
  reflexivity.
Qed.

(** C3: whatever the header holds, in [data_offset] and [checksum] in
    particular, a successful pack leaves in byte 12 the value 0x50 plus
    the NS flag as bit 0 (so 5 in the high nibble) and zero in bytes
    16 and 17. *)
Theorem pack_forces_offset_and_checksum (h : netstack_tcp)
  (buffer : netstack_buffer) :
  shift_inserts_front ->
  fst (netstack_buffer_shift buffer 20) = 0 ->
  exists packed,
    netstack_tcp_pack h buffer = (NETSTACK_ERROR_NONE, h, packed)
    /\ load (data packed) 12
       = 0x50 + flag_if (test (control_bits h) NETSTACK_TCP_NS) 1
    /\ Z.shiftr (load (data packed) 12) 4 = 5
    /\ Z.land (load (data packed) 12) 0x0f
       = flag_if (test (control_bits h) NETSTACK_TCP_NS) 1
    /\ load (data packed) 16 = 0
    /\ load (data packed) 17 = 0.
Proof.
  intros Hshift Hok.
  exists (mk_buffer (wire_bytes h ++ data buffer)).
  split; [apply pack_wire_bytes; assumption|].
  cbn [data]. unfold wire_bytes, layout, load. cbn [app nth].
  destruct (test (control_bits h) NETSTACK_TCP_NS); repeat split.
Qed.

(** *** Field widths *)

Lemma of_uchar_range (b : byte) : 0 <= of_uchar b < 256.
Proof. apply byte.unsigned_range. Qed.

Lemma to_of_uchar (b : byte) : to_uchar (of_uchar b) = b.
Proof. apply byte.of_Z_unsigned. Qed.

Lemma to_uchar_low (hi : Z) (b : byte) :
  to_uchar (hi * 256 + of_uchar b) = b.
Proof.
  rewrite <- (to_of_uchar b) at 2.
  unfold to_uchar. apply byte.unsigned_inj.
  rewrite !byte.unsigned_of_Z. unfold byte.wrap. change (2 ^ 8) with 256.
  rewrite Z.add_comm, Z_mod_plus_full. reflexivity.
Qed.

Lemma div_digit (hi : Z) (b : byte) : (hi * 256 + of_uchar b) / 256 = hi.
Proof.
  pose proof (of_uchar_range b).
  symmetry. apply (Z.div_unique _ 256 hi (of_uchar b)); lia.
Qed.

(** Two bytes decode to the 16-bit number they spell, four bytes to
    the 32-bit number. *)
Lemma decode_16_bytes (a b : byte) :
  Z.lor (Z.lor 0 (shl_uint (of_uchar a) 8)) (shl_uint (of_uchar b) 0)
  = of_uchar a * 256 + of_uchar b.
Proof.
  pose proof (of_uchar_range a) as Ha. pose proof (of_uchar_range b) as Hb.
  set (v := of_uchar a * 256 + of_uchar b).
  assert (Ea : to_uchar (v / 256) = a).
  { subst v. rewrite div_digit. apply to_of_uchar. }
  assert (Eb : to_uchar v = b) by apply to_uchar_low.
  rewrite <- Ea at 1. rewrite <- Eb at 1.
  rewrite decode_16. apply Z.mod_small. subst v. lia.
Qed.

Lemma decode_32_bytes (a b c d : byte) :
  Z.lor (Z.lor (Z.lor (Z.lor 0
    (shl_ulong (of_uchar a) 24))
    (shl_ulong (of_uchar b) 16))
    (shl_ulong (of_uchar c) 8))
    (shl_ulong (of_uchar d) 0)
  = ((of_uchar a * 256 + of_uchar b) * 256 + of_uchar c) * 256 + of_uchar d.
Proof.
  pose proof (of_uchar_range a) as Ha. pose proof (of_uchar_range b) as Hb.
  pose proof (of_uchar_range c) as Hc. pose proof (of_uchar_range d) as Hd.
  set (v := ((of_uchar a * 256 + of_uchar b) * 256 + of_uchar c) * 256
            + of_uchar d).
  assert (Ed : to_uchar v = d) by apply to_uchar_low.
  assert (Ec : to_uchar (v / 256) = c).
  { subst v. rewrite div_digit. apply to_uchar_low. }
  assert (Eb : to_uchar (v / 65536) = b).
  { change 65536 with (256 * 256). rewrite <- Z.div_div by lia.
    subst v. rewrite !div_digit. apply to_uchar_low. }
  assert (Ea : to_uchar (v / 16777216) = a).
  { change 16777216 with (256 * (256 * 256)).
    rewrite <- !Z.div_div by lia.
    subst v. rewrite !div_digit. apply to_of_uchar. }
  rewrite <- Ea at 1. rewrite <- Eb at 1. rewrite <- Ec at 1.
  rewrite <- Ed at 1.
  rewrite decode_32. apply Z.mod_small. subst v. lia.
Qed.

Lemma decode_offset_bound (b : byte) :
  to_uint (Z.shiftr (of_uchar b) 4) <= 15.
Proof.
  pose proof (of_uchar_range b) as Hb.
  rewrite Z.shiftr_div_pow2 by lia. change (2 ^ 4) with 16.
  assert (0 <= of_uchar b / 16 < 16)
    by (split; [apply Z.div_pos | apply Z.div_lt_upper_bound]; lia).
  unfold to_uint, UINT_MAX. rewrite Z.mod_small; lia.
Qed.

(** Whatever the bytes, the header unpack decodes is within the field
    widths. *)
Lemma read_header_widths (header : list byte) :
  field_widths (read_header header).
Proof.
  unfold read_header, load. cbv zeta.
  unfold field_widths;
    cbn [source destination sequence acknowledgment window_size
         urgent_pointer control_bits data_offset checksum].
  rewrite !decode_16_bytes, !decode_32_bytes, set_if_combination.
  repeat match goal with
    | |- context [of_uchar ?b] =>
        lazymatch goal with
        | _ : 0 <= of_uchar b < 256 |- _ => fail
        | _ => pose proof (of_uchar_range b)
        end
    end.
  repeat split; try lia.
  - apply decode_offset_bound.
  - apply only_flag_bits_combination.
Qed.

Lemma init_widths (tcp : netstack_tcp) :
  field_widths (netstack_tcp_init tcp).
Proof.
  unfold field_widths, netstack_tcp_init;
    cbn [source destination sequence acknowledgment window_size
         urgent_pointer control_bits data_offset checksum].
  repeat split; try lia.
Qed.

Lemma accepted_value (str : list ascii) :
  rejected str = false -> decimal_value (consulted str) <= 65535.
Proof.
  unfold rejected. intros H. apply orb_false_elim in H.
  destruct H as [_ H]. apply Z.ltb_ge in H. exact H.
Qed.

(** C10, the setters as preserving steps: [netstack_tcp_init] and a
    successful [netstack_tcp_unpack] produce headers within the field
    widths; a
    successful setter stores a port of at most 65535 and hands back a
    header within the field widths whenever the header was within them
    before the call. *)
Theorem field_widths_maintained :
  distinct_errors ->
  (forall tcp, field_widths (netstack_tcp_init tcp))
  /\ (forall tcp buffer,
        fst (netstack_tcp_unpack tcp buffer) = NETSTACK_ERROR_NONE ->
        field_widths (snd (netstack_tcp_unpack tcp buffer)))
  /\ (forall tcp str,
        fst (netstack_tcp_set_source tcp str) = NETSTACK_ERROR_NONE ->
        source (snd (netstack_tcp_set_source tcp str)) <= 65535
        /\ (field_widths tcp ->
            field_widths (snd (netstack_tcp_set_source tcp str))))
  /\ (forall tcp str,
        fst (netstack_tcp_set_destination tcp str) = NETSTACK_ERROR_NONE ->
        destination (snd (netstack_tcp_set_destination tcp str)) <= 65535
        /\ (field_widths tcp ->
            field_widths (snd (netstack_tcp_set_destination tcp str)))).
Proof.
  intros [Hbad Hmiss]. split; [exact init_widths|]. split; [|split].
  - intros tcp buffer. unfold netstack_tcp_unpack.
    destruct (size buffer <? 20); cbn [fst snd]; intros H.
    + contradiction.
    + apply read_header_widths.
  - intros tcp str. unfold netstack_tcp_set_source.
    rewrite parse_port_spec.
    destruct (rejected str) eqn:Hr; cbn [fst snd]; intros H;
      [contradiction|].
    apply accepted_value in Hr. split; [exact Hr|].
    unfold field_widths, with_source;
      cbn [source destination sequence acknowledgment window_size
           urgent_pointer control_bits data_offset checksum].
    tauto.
  - intros tcp str. unfold netstack_tcp_set_destination.
    rewrite parse_port_spec.
    destruct (rejected str) eqn:Hr; cbn [fst snd]; intros H;
      [contradiction|].
    apply accepted_value in Hr. split; [exact Hr|].
    unfold field_widths, with_destination;
      cbn [source destination sequence acknowledgment window_size
           urgent_pointer control_bits data_offset checksum].
    tauto.
Qed.

End Wire.

(** The wire layout on the sample environment. *)

Lemma pack_unpack_roundtrip_witness :
  let roomy := bounded_shift 1500 in
  (@distinct_flags wire_flags
   /\ @shift_inserts_front roomy
   /\ fst (@netstack_buffer_shift roomy (zero_buffer 3) 20) = 0
   /\ fits_wire syn_ack_header
   /\ control_bits syn_ack_header
      = @combination wire_flags false false false false true false false
          true false)
  /\ exists h',
       @roundtrip wire_flags sample_errors roomy syn_ack_header
         wide_port_header (zero_buffer 3) = (0, h')
       /\ source h' = 80 /\ destination h' = 443
       /\ sequence h' = 305419896 /\ acknowledgment h' = 2271560481
       /\ window_size h' = 1234 /\ urgent_pointer h' = 7
       /\ control_bits h' = 0x012
       /\ data_offset h' = 5 /\ checksum h' = 0.
Proof.
  intros roomy.
  assert (Hfit : fits_wire syn_ack_header)
    by (unfold fits_wire, syn_ack_header; simpl; lia).
  split.
  - split; [reflexivity|]. split; [apply bounded_shift_inserts_front|].
    split; [reflexivity|]. split; [exact Hfit | reflexivity].
  - apply (pack_unpack_roundtrip (TCP := wire_flags) (ERR := sample_errors)
             (BUF := roomy) syn_ack_header wide_port_header (zero_buffer 3)
             false false false false true false false true false).
    + reflexivity.
    + apply bounded_shift_inserts_front.
    + reflexivity.
    + exact Hfit.
    + reflexivity.
Defined.

(** A source port of 17 bits is a value of its C type, yet it does not
    come back from the wire: only its low 16 bits are packed. *)
Lemma roundtrip_truncates_wide_port :
  representable wide_port_header
  /\ control_bits wide_port_header
     = @combination wire_flags false false false false false false false
         false false
  /\ source wide_port_header = 65536
  /\ fst (@roundtrip wire_flags sample_errors (bounded_shift 1500)
             wide_port_header wide_port_header empty_buffer) = 0
  /\ source (snd (@roundtrip wire_flags sample_errors (bounded_shift 1500)
                    wide_port_header wide_port_header empty_buffer)) = 0
  /\ source (snd (@roundtrip wire_flags sample_errors (bounded_shift 1500)
                    wide_port_header wide_port_header empty_buffer))
     <> source wide_port_header.
Proof.
  split.
  - unfold representable, wide_port_header, UINT_MAX, ULONG_MAX; simpl; lia.
  - split; [reflexivity|]. split; [reflexivity|].
    split; [vm_compute; reflexivity|].
    split; [vm_compute; reflexivity | vm_compute; discriminate].
Qed.

Lemma pack_syn_segment_witness :
  let roomy := bounded_shift 1500 in
  let h := mk_tcp 80 443 1 0 5 (@NETSTACK_TCP_SYN wire_flags) 1 0 0 in
  (@distinct_flags wire_flags
   /\ @shift_inserts_front roomy
   /\ fst (@netstack_buffer_shift roomy (zero_buffer 3) 20) = 0)
  /\ exists packed,
       @netstack_tcp_pack wire_flags sample_errors roomy h (zero_buffer 3)
       = (0, h, packed)
       /\ firstn 20 (data packed)
          = [ Byte.x00; Byte.x50; Byte.x01; Byte.xbb;
              Byte.x00; Byte.x00; Byte.x00; Byte.x01;
              Byte.x00; Byte.x00; Byte.x00; Byte.x00;
              Byte.x50; Byte.x02; Byte.x00; Byte.x01;
              Byte.x00; Byte.x00; Byte.x00; Byte.x00 ].
Proof.
  intros roomy h. split.
  - split; [reflexivity|]. split; [apply bounded_shift_inserts_front|].
    reflexivity.
  - apply (pack_syn_segment (TCP := wire_flags) (ERR := sample_errors)
             (BUF := roomy) (zero_buffer 3) 5).
    + reflexivity.
    + apply bounded_shift_inserts_front.
    + reflexivity.
Defined.

Lemma pack_forces_offset_and_checksum_witness :
  let roomy := bounded_shift 1500 in
  (@shift_inserts_front roomy
   /\ fst (@netstack_buffer_shift roomy empty_buffer 20) = 0)
  /\ exists packed,
       @netstack_tcp_pack wire_flags sample_errors roomy syn_ack_header
         empty_buffer = (0, syn_ack_header, packed)
       /\ load (data packed) 12 = 0x50
       /\ Z.shiftr (load (data packed) 12) 4 = 5
       /\ Z.land (load (data packed) 12) 0x0f = 0
       /\ load (data packed) 16 = 0
       /\ load (data packed) 17 = 0.
Proof.
  intros roomy. split.
  - split; [apply bounded_shift_inserts_front | reflexivity].
  - apply (pack_forces_offset_and_checksum (TCP := wire_flags)
             (ERR := sample_errors) (BUF := roomy)
             syn_ack_header empty_buffer).
    + apply bounded_shift_inserts_front.
    + reflexivity.
Defined.

Lemma field_widths_maintained_witness :
  let fresh := netstack_tcp_init wide_window_header in
  @distinct_errors sample_errors
  /\ @field_widths wire_flags fresh
  /\ (fst (@netstack_tcp_unpack wire_flags sample_errors fresh
             (zero_buffer 20)) = 0
      /\ @field_widths wire_flags
           (snd (@netstack_tcp_unpack wire_flags sample_errors fresh
                   (zero_buffer 20))))
  /\ (fst (@netstack_tcp_set_source sample_errors fresh (digits "8080")) = 0
      /\ source (snd (@netstack_tcp_set_source sample_errors fresh
                        (digits "8080"))) <= 65535
      /\ @field_widths wire_flags
           (snd (@netstack_tcp_set_source sample_errors fresh
                   (digits "8080"))))
  /\ (fst (@netstack_tcp_set_destination sample_errors fresh
             (digits "443")) = 0
      /\ destination (snd (@netstack_tcp_set_destination sample_errors fresh
                             (digits "443"))) <= 65535
      /\ @field_widths wire_flags
           (snd (@netstack_tcp_set_destination sample_errors fresh
                   (digits "443")))).
Proof.
  intros fresh.
  destruct (field_widths_maintained (TCP := wire_flags)
              (ERR := sample_errors) sample_errors_distinct)
    as (Hinit & Hunpack & Hsrc & Hdst).
  split; [exact sample_errors_distinct|].
  split; [apply Hinit|].
  split; [split; [reflexivity | apply Hunpack; reflexivity]|].
  split.
  - split; [reflexivity|].
    destruct (Hsrc fresh (digits "8080") eq_refl) as [Hle Hkeep].
    split; [exact Hle | apply Hkeep, Hinit].
  - split; [reflexivity|].
    destruct (Hdst fresh (digits "443") eq_refl) as [Hle Hkeep].
    split; [exact Hle | apply Hkeep, Hinit].
Defined.

(** A header holding a window of 17 bits is a value of its C type; a
    successful [netstack_tcp_set_source] stores the port and leaves the
    window as it is, outside the field widths. *)
Lemma setter_keeps_wide_window :
  representable wide_window_header
  /\ @netstack_tcp_set_source sample_errors wide_window_header (digits "80")
     = (@NETSTACK_ERROR_NONE sample_errors, with_source wide_window_header 80)
  /\ ~ @field_widths wire_flags
         (snd (@netstack_tcp_set_source sample_errors wide_window_header
                 (digits "80"))).
Proof.
  split.
  - unfold representable, wide_window_header, UINT_MAX, ULONG_MAX;
      simpl; lia.
  - split; [reflexivity|].
    intros (_ & _ & Hwindow & _). vm_compute in Hwindow.
    apply Hwindow. reflexivity.
Qed.

(** ** More on the port parser and the setters *)

Section Setters.

Context {ERR : error_h}.

Lemma consulted_firstn (str : list ascii) : consulted str = firstn 5 str.
Proof.
  unfold consulted.
  destruct (Nat.le_gt_cases (length str) 5) as [Hle|Hgt].
  - rewrite Nat.min_l by exact Hle.
    rewrite firstn_all, firstn_all2 by exact Hle. reflexivity.
  - rewrite Nat.min_r by lia. reflexivity.
Qed.

(** X1: [parse_port] sees a string through its first five characters: on
    every input, digits or not, accepted or not, the result is that of
    the string cut after five characters. *)
Theorem parse_port_truncates_input (port_ptr : Z) (str : list ascii) :
  parse_port port_ptr str = parse_port port_ptr (firstn 5 str).
Proof.
  rewrite !parse_port_spec. unfold rejected.
  rewrite !consulted_firstn, firstn_firstn. reflexivity.
Qed.

Lemma decimal_value_zeros (k : nat) (str : list ascii) :
  decimal_value (repeat "0"%char k ++ str) = decimal_value str.
Proof.
  induction k as [|k IH]; [reflexivity|].
  cbn [repeat app decimal_value]. rewrite IH.
  change (char "0" - char "0") with 0. lia.
Qed.

Lemma existsb_zeros (k : nat) (str : list ascii) :
  existsb (fun c => negb (is_digit c)) (repeat "0"%char k ++ str)
  = existsb (fun c => negb (is_digit c)) str.
Proof. induction k as [|k IH]; [reflexivity | exact IH]. Qed.

(** X2: Leading zeros do not change what [parse_port] returns, as long as
    the string with its zeros has at most five characters. *)
Theorem parse_port_leading_zeros (port_ptr : Z) (k : nat)
  (str : list ascii) :
  (k + length str <= 5)%nat ->
  parse_port port_ptr (repeat "0"%char k ++ str) = parse_port port_ptr str.
Proof.
  intros Hlen. rewrite !parse_port_spec. unfold rejected.
  rewrite !consulted_short
    by (rewrite ?length_app, ?repeat_length; lia).
  rewrite decimal_value_zeros, existsb_zeros. reflexivity.
Qed.

Lemma firstn_zeros (n k : nat) :
  firstn n (repeat "0"%char k) = repeat "0"%char (Nat.min n k).
Proof.
  revert k. induction n as [|n IH]; intros [|k]; try reflexivity.
  cbn [firstn repeat Nat.min]. rewrite IH. reflexivity.
Qed.

(** X3: A string made of '0' characters only, however long and the
    empty string included, is accepted: [parse_port] stores 0 and
    returns [NETSTACK_ERROR_NONE], and so do the setters on their
    field. *)
Theorem parse_port_zeros (tcp : netstack_tcp) (port_ptr : Z) (k : nat) :
  parse_port port_ptr (repeat "0"%char k) = (NETSTACK_ERROR_NONE, 0)
  /\ netstack_tcp_set_source tcp (repeat "0"%char k)
     = (NETSTACK_ERROR_NONE, with_source tcp 0)
  /\ netstack_tcp_set_destination tcp (repeat "0"%char k)
     = (NETSTACK_ERROR_NONE, with_destination tcp 0).
Proof.
  assert (Hp : forall p,
             parse_port p (repeat "0"%char k) = (NETSTACK_ERROR_NONE, 0)).
  { intros p. rewrite parse_port_spec. unfold rejected.
    rewrite consulted_firstn, firstn_zeros.
    rewrite <- (app_nil_r (repeat "0"%char (Nat.min 5 k))).
    rewrite existsb_zeros, decimal_value_zeros. reflexivity. }
  unfold netstack_tcp_set_source, netstack_tcp_set_destination.
  rewrite !Hp. auto.
Qed.

(** X4: A setter writes no field but its own, whether it succeeds or
    fails. *)
Theorem setters_touch_one_field (tcp : netstack_tcp) (str : list ascii) :
  let s := snd (netstack_tcp_set_source tcp str) in
  let d := snd (netstack_tcp_set_destination tcp str) in
  (destination s = destination tcp /\ sequence s = sequence tcp
   /\ acknowledgment s = acknowledgment tcp
   /\ data_offset s = data_offset tcp /\ control_bits s = control_bits tcp
   /\ window_size s = window_size tcp /\ checksum s = checksum tcp
   /\ urgent_pointer s = urgent_pointer tcp)
  /\ (source d = source tcp /\ sequence d = sequence tcp
      /\ acknowledgment d = acknowledgment tcp
      /\ data_offset d = data_offset tcp /\ control_bits d = control_bits tcp
      /\ window_size d = window_size tcp /\ checksum d = checksum tcp
      /\ urgent_pointer d = urgent_pointer tcp).
Proof.
  unfold netstack_tcp_set_source, netstack_tcp_set_destination.
  destruct (parse_port (source tcp) str) as [e1 p1].
  destruct (parse_port (destination tcp) str) as [e2 p2].
  cbn. repeat split.
Qed.

(** X5: The two setters commute: in either order they return the same
    codes and leave the same header. *)
Theorem setters_commute (tcp : netstack_tcp) (src dst : list ascii) :
  snd (netstack_tcp_set_destination
         (snd (netstack_tcp_set_source tcp src)) dst)
  = snd (netstack_tcp_set_source
           (snd (netstack_tcp_set_destination tcp dst)) src)
  /\ fst (netstack_tcp_set_source
            (snd (netstack_tcp_set_destination tcp dst)) src)
     = fst (netstack_tcp_set_source tcp src)
  /\ fst (netstack_tcp_set_destination
            (snd (netstack_tcp_set_source tcp src)) dst)
     = fst (netstack_tcp_set_destination tcp dst).
Proof.
  unfold netstack_tcp_set_source, netstack_tcp_set_destination.
  rewrite !parse_port_spec.
  destruct (rejected src), (rejected dst); destruct tcp; cbn; auto.
Qed.

(** X6: Setting the source twice: an accepted second string overrides the
    first, a rejected one leaves what the first call left. *)
Theorem set_source_twice (tcp : netstack_tcp) (first second : list ascii) :
  snd (netstack_tcp_set_source
         (snd (netstack_tcp_set_source tcp first)) second)
  = if rejected second then snd (netstack_tcp_set_source tcp first)
    else snd (netstack_tcp_set_source tcp second).
Proof.
  unfold netstack_tcp_set_source. rewrite !parse_port_spec.
  destruct (rejected first), (rejected second); destruct tcp; reflexivity.
Qed.

End Setters.

Lemma parse_port_leading_zeros_witness :
  (3 + length (digits "80") <= 5)%nat
  /\ @parse_port sample_errors 7 (repeat "0"%char 3 ++ digits "80")
     = @parse_port sample_errors 7 (digits "80").
Proof.
  split; [simpl; lia|].
  apply (parse_port_leading_zeros (ERR := sample_errors) 7 3 (digits "80")).
  simpl; lia.
Defined.

(** ** More on pack and unpack *)

Section Segments.

Context {TCP : tcp_h} {ERR : error_h} {BUF : buffer_h}.

(** X7: What pack returns does not depend on [data_offset] and [checksum]:
    two headers that differ in these two fields only get the same code
    and leave the same bytes in the buffer. *)
Theorem pack_ignores_offset_and_checksum (h : netstack_tcp)
  (offset sum : Z) (buffer : netstack_buffer) :
  let h' := mk_tcp (source h) (destination h) (sequence h)
                   (acknowledgment h) offset (control_bits h)
                   (window_size h) sum (urgent_pointer h) in
  fst (fst (netstack_tcp_pack h' buffer))
  = fst (fst (netstack_tcp_pack h buffer))
  /\ snd (netstack_tcp_pack h' buffer) = snd (netstack_tcp_pack h buffer).
Proof.
  intros h'. unfold netstack_tcp_pack.
  destruct (netstack_buffer_shift buffer 20) as [err buffer'].
  destruct (negb (err =? 0)); split; reflexivity.
Qed.

(** X8: A successful pack prepends: the buffer is 20 bytes longer, its
    first 20 bytes are the wire bytes of the header, and what it held
    before follows, unchanged and in order. *)
Theorem pack_prepends (h : netstack_tcp) (buffer : netstack_buffer) :
  shift_inserts_front ->
  fst (netstack_buffer_shift buffer 20) = 0 ->
  exists packed,
    netstack_tcp_pack h buffer = (NETSTACK_ERROR_NONE, h, packed)
    /\ size packed = size buffer + 20
    /\ firstn 20 (data packed) = wire_bytes h
    /\ skipn 20 (data packed) = data buffer.
Proof.
  intros Hshift Hok.
  exists (mk_buffer (wire_bytes h ++ data buffer)).
  split; [apply pack_wire_bytes; assumption|].
  unfold size. cbn [data]. rewrite length_app.
  unfold wire_bytes at 1. rewrite layout_length.
  split; [lia|]. split; reflexivity.
Qed.

Lemma of_to_uchar_16 (x : Z) :
  0 <= x <= 65535 ->
  of_uchar (to_uchar (x / 256)) * 256 + of_uchar (to_uchar x) = x.
Proof.
  intros Hx. rewrite <- decode_16_bytes, decode_16.
  apply Z.mod_small. lia.
Qed.

Lemma of_to_uchar_32 (x : Z) :
  0 <= x <= 4294967295 ->
  ((of_uchar (to_uchar (x / 16777216)) * 256
    + of_uchar (to_uchar (x / 65536))) * 256
   + of_uchar (to_uchar (x / 256))) * 256 + of_uchar (to_uchar x) = x.
Proof.
  intros Hx. rewrite <- decode_32_bytes, decode_32.
  apply Z.mod_small. lia.
Qed.

(** X9: Network byte order: for a header within the widths of the wire,
    the bytes pack leaves spell each field most significant byte
    first, at offsets 0, 2, 4, 8, 14 and 18. *)
Theorem pack_big_endian (h : netstack_tcp) (buffer : netstack_buffer) :
  shift_inserts_front ->
  fst (netstack_buffer_shift buffer 20) = 0 ->
  fits_wire h ->
  let bytes := data (snd (netstack_tcp_pack h buffer)) in
  load bytes 0 * 256 + load bytes 1 = source h
  /\ load bytes 2 * 256 + load bytes 3 = destination h
  /\ ((load bytes 4 * 256 + load bytes 5) * 256 + load bytes 6) * 256
     + load bytes 7 = sequence h
  /\ ((load bytes 8 * 256 + load bytes 9) * 256 + load bytes 10) * 256
     + load bytes 11 = acknowledgment h
  /\ load bytes 14 * 256 + load bytes 15 = window_size h
  /\ load bytes 18 * 256 + load bytes 19 = urgent_pointer h.
Proof.
  intros Hshift Hok (Hs & Hd & Hq & Ha & Hw & Hu).
  rewrite pack_wire_bytes by assumption. cbn [snd data].
  unfold wire_bytes, layout, load. cbn [app nth].
  rewrite !of_to_uchar_16, !of_to_uchar_32 by assumption.
  repeat split.
Qed.

(** *** What unpack reads *)

Lemma read_header_fields (header : list byte) :
  let h := read_header header in
  source h = load header 0 * 256 + load header 1
  /\ destination h = load header 2 * 256 + load header 3
  /\ sequence h
     = ((load header 4 * 256 + load header 5) * 256 + load header 6) * 256
       + load header 7
  /\ acknowledgment h
     = ((load header 8 * 256 + load header 9) * 256 + load header 10) * 256
       + load header 11
  /\ window_size h = load header 14 * 256 + load header 15
  /\ checksum h = load header 16 * 256 + load header 17
  /\ urgent_pointer h = load header 18 * 256 + load header 19.
Proof.
  unfold read_header, load. cbv zeta.
  cbn [source destination sequence acknowledgment window_size
       urgent_pointer checksum].
  rewrite !decode_16_bytes, !decode_32_bytes. repeat split.
Qed.

Lemma read_header_offset (header : list byte) :
  data_offset (read_header header) = load header 12 / 16.
Proof.
  unfold read_header, load. cbv zeta. cbn [data_offset].
  pose proof (of_uchar_range (nth 12 header Byte.x00)) as Hb.
  rewrite Z.shiftr_div_pow2 by lia. change (2 ^ 4) with 16.
  assert (0 <= of_uchar (nth 12 header Byte.x00) / 16 < 16)
    by (split; [apply Z.div_pos | apply Z.div_lt_upper_bound]; lia).
  unfold to_uint, UINT_MAX. apply Z.mod_small. lia.
Qed.

Lemma read_header_flags (header : list byte) :
  control_bits (read_header header)
  = combination
      (test (load header 12) 0x01) (test (load header 13) 0x80)
      (test (load header 13) 0x40) (test (load header 13) 0x20)
      (test (load header 13) 0x10) (test (load header 13) 0x08)
      (test (load header 13) 0x04) (test (load header 13) 0x02)
      (test (load header 13) 0x01).
Proof.
  unfold read_header. cbv zeta. cbn [control_bits].
  apply set_if_combination.
Qed.

Lemma test_testbit (b : byte) :
  test (of_uchar b) 0x80 = Z.testbit (of_uchar b) 7
  /\ test (of_uchar b) 0x40 = Z.testbit (of_uchar b) 6
  /\ test (of_uchar b) 0x20 = Z.testbit (of_uchar b) 5
  /\ test (of_uchar b) 0x10 = Z.testbit (of_uchar b) 4
  /\ test (of_uchar b) 0x08 = Z.testbit (of_uchar b) 3
  /\ test (of_uchar b) 0x04 = Z.testbit (of_uchar b) 2
  /\ test (of_uchar b) 0x02 = Z.testbit (of_uchar b) 1
  /\ test (of_uchar b) 0x01 = Z.testbit (of_uchar b) 0.
Proof. destruct b; vm_compute; tauto. Qed.

(** X10: Unpack decodes what is on the wire: on a buffer of 20 bytes or
    more, each field is the big-endian number at its offset, the data
    offset is the high nibble of byte 12 whatever it is, and the
    checksum is the number in bytes 16 and 17: neither is forced to
    the 5 and 0 that pack writes. *)
Theorem unpack_big_endian (tcp : netstack_tcp) (buffer : netstack_buffer) :
  20 <= size buffer ->
  let bytes := data buffer in
  exists h,
    netstack_tcp_unpack tcp buffer = (NETSTACK_ERROR_NONE, h)
    /\ source h = load bytes 0 * 256 + load bytes 1
    /\ destination h = load bytes 2 * 256 + load bytes 3
    /\ sequence h
       = ((load bytes 4 * 256 + load bytes 5) * 256 + load bytes 6) * 256
         + load bytes 7
    /\ acknowledgment h
       = ((load bytes 8 * 256 + load bytes 9) * 256 + load bytes 10) * 256
         + load bytes 11
    /\ data_offset h = load bytes 12 / 16
    /\ window_size h = load bytes 14 * 256 + load bytes 15
    /\ checksum h = load bytes 16 * 256 + load bytes 17
    /\ urgent_pointer h = load bytes 18 * 256 + load bytes 19.
Proof.
  intros Hsize bytes. exists (read_header bytes).
  unfold netstack_tcp_unpack. apply Z.ltb_ge in Hsize. rewrite Hsize.
  destruct (read_header_fields bytes) as (Hs & Hd & Hq & Ha & Hw & Hc & Hu).
  pose proof (read_header_offset bytes) as Ho.
  repeat split; assumption.
Qed.

(** X11: The control bits unpack sets are one flag per wire bit: NS for bit
    0 of byte 12, CWR .. FIN for bits 7 .. 0 of byte 13.  Bits 1 to 3
    of byte 12 set no flag. *)
Theorem unpack_flags_from_bits (tcp : netstack_tcp)
  (buffer : netstack_buffer) :
  20 <= size buffer ->
  let b12 := load (data buffer) 12 in
  let b13 := load (data buffer) 13 in
  control_bits (snd (netstack_tcp_unpack tcp buffer))
  = combination (Z.testbit b12 0) (Z.testbit b13 7) (Z.testbit b13 6)
      (Z.testbit b13 5) (Z.testbit b13 4) (Z.testbit b13 3)
      (Z.testbit b13 2) (Z.testbit b13 1) (Z.testbit b13 0).
Proof.
  intros Hsize b12 b13.
  unfold netstack_tcp_unpack. apply Z.ltb_ge in Hsize. rewrite Hsize.
  cbn [snd]. rewrite read_header_flags. subst b12 b13. unfold load.
  destruct (test_testbit (nth 13 (data buffer) Byte.x00))
    as (-> & -> & -> & -> & -> & -> & -> & ->).
  destruct (test_testbit (nth 12 (data buffer) Byte.x00))
    as (_ & _ & _ & _ & _ & _ & _ & ->).
  reflexivity.
Qed.

Lemma read_header_front (front rest rest' : list byte) :
  length front = 20%nat ->
  read_header (front ++ rest) = read_header (front ++ rest').
Proof.
  intros Hlen.
  do 20 (destruct front as [|? front]; [discriminate Hlen|]).
  destruct front; [|discriminate Hlen].
  reflexivity.
Qed.

(** X12: Unpack looks at the first 20 bytes only: what follows them in the
    buffer and what the header held before the call have no influence
    on the result. *)
Theorem unpack_reads_front_only (tcp tcp' : netstack_tcp)
  (front rest rest' : list byte) :
  length front = 20%nat ->
  netstack_tcp_unpack tcp (mk_buffer (front ++ rest))
  = netstack_tcp_unpack tcp' (mk_buffer (front ++ rest')).
Proof.
  intros Hlen. unfold netstack_tcp_unpack, size. cbn [data].
  rewrite !length_app, Hlen.
  destruct (Z.ltb_spec (Z.of_nat (20 + length rest)) 20); [lia|].
  destruct (Z.ltb_spec (Z.of_nat (20 + length rest')) 20); [lia|].
  rewrite (read_header_front front rest rest') by exact Hlen.
  reflexivity.
Qed.

End Segments.

(** ** Round trips between headers and bytes *)

Section RoundTrips.

Context {TCP : tcp_h} {ERR : error_h} {BUF : buffer_h}.

(** X13: Whatever the header holds, packing and unpacking succeeds and
    gives every field reduced to its width on the wire (16 bits, 32
    for the two sequence numbers), the flags that pack's tests find in
    the control bits and no other bit, data offset 5 and checksum 0. *)
Theorem roundtrip_reduces_fields (h tcp : netstack_tcp)
  (buffer : netstack_buffer) :
  shift_inserts_front ->
  fst (netstack_buffer_shift buffer 20) = 0 ->
  exists h',
    roundtrip h tcp buffer = (NETSTACK_ERROR_NONE, h')
    /\ source h' = source h mod 65536
    /\ destination h' = destination h mod 65536
    /\ sequence h' = sequence h mod 4294967296
    /\ acknowledgment h' = acknowledgment h mod 4294967296
    /\ window_size h' = window_size h mod 65536
    /\ urgent_pointer h' = urgent_pointer h mod 65536
    /\ control_bits h'
       = combination
           (test (control_bits h) NETSTACK_TCP_NS)
           (test (control_bits h) NETSTACK_TCP_CWR)
           (test (control_bits h) NETSTACK_TCP_ECE)
           (test (control_bits h) NETSTACK_TCP_URG)
           (test (control_bits h) NETSTACK_TCP_ACK)
           (test (control_bits h) NETSTACK_TCP_PSH)
           (test (control_bits h) NETSTACK_TCP_RST)
           (test (control_bits h) NETSTACK_TCP_SYN)
           (test (control_bits h) NETSTACK_TCP_FIN)
    /\ data_offset h' = 5
    /\ checksum h' = 0.
Proof.
  intros Hshift Hok. exists (decoded h).
  split; [apply roundtrip_decoded; assumption|].
  repeat split.
Qed.

Lemma decoded_decoded (h : netstack_tcp) :
  distinct_flags -> decoded (decoded h) = decoded h.
Proof.
  intros Hflags. unfold decoded at 1.
  cbn [decoded source destination sequence acknowledgment window_size
       urgent_pointer control_bits].
  rewrite !Z.mod_mod by lia.
  destruct (test_combination
              (test (control_bits h) NETSTACK_TCP_NS)
              (test (control_bits h) NETSTACK_TCP_CWR)
              (test (control_bits h) NETSTACK_TCP_ECE)
              (test (control_bits h) NETSTACK_TCP_URG)
              (test (control_bits h) NETSTACK_TCP_ACK)
              (test (control_bits h) NETSTACK_TCP_PSH)
              (test (control_bits h) NETSTACK_TCP_RST)
              (test (control_bits h) NETSTACK_TCP_SYN)
              (test (control_bits h) NETSTACK_TCP_FIN) Hflags)
    as (-> & -> & -> & -> & -> & -> & -> & -> & ->).
  reflexivity.
Qed.

(** X14: A header that came off the wire goes through the wire unchanged:
    packing and unpacking the result of a round trip gives that result
    again, for every header. *)
Theorem roundtrip_idempotent (h tcp tcp' : netstack_tcp)
  (buffer buffer' : netstack_buffer) :
  distinct_flags ->
  shift_inserts_front ->
  fst (netstack_buffer_shift buffer 20) = 0 ->
  fst (netstack_buffer_shift buffer' 20) = 0 ->
  roundtrip (snd (roundtrip h tcp buffer)) tcp' buffer'
  = roundtrip h tcp buffer.
Proof.
  intros Hflags Hshift Hok Hok'.
  rewrite (roundtrip_decoded h tcp buffer) by assumption. cbn [snd].
  rewrite roundtrip_decoded by assumption.
  rewrite decoded_decoded by assumption. reflexivity.
Qed.

Lemma decoded_within_widths (h : netstack_tcp)
  (ns cwr ece urg ack psh rst syn fin : bool) :
  distinct_flags ->
  fits_wire h ->
  control_bits h = combination ns cwr ece urg ack psh rst syn fin ->
  decoded h
  = mk_tcp (source h) (destination h) (sequence h) (acknowledgment h)
           5 (control_bits h) (window_size h) 0 (urgent_pointer h).
Proof.
  intros Hflags (Hs & Hd & Hq & Ha & Hw & Hu) Hbits.
  unfold decoded. rewrite !Z.mod_small by lia.
  rewrite Hbits.
  destruct (test_combination ns cwr ece urg ack psh rst syn fin Hflags)
    as (-> & -> & -> & -> & -> & -> & -> & -> & ->).
  reflexivity.
Qed.

(** X15: Within the widths of the wire, pack tells headers apart: two
    headers that leave the same bytes in the same buffer agree on every
    field but [data_offset] and [checksum]. *)
Theorem pack_injective_within_widths (h1 h2 : netstack_tcp)
  (buffer : netstack_buffer)
  (ns1 cwr1 ece1 urg1 ack1 psh1 rst1 syn1 fin1 : bool)
  (ns2 cwr2 ece2 urg2 ack2 psh2 rst2 syn2 fin2 : bool) :
  distinct_flags ->
  shift_inserts_front ->
  fst (netstack_buffer_shift buffer 20) = 0 ->
  fits_wire h1 ->
  fits_wire h2 ->
  control_bits h1
  = combination ns1 cwr1 ece1 urg1 ack1 psh1 rst1 syn1 fin1 ->
  control_bits h2
  = combination ns2 cwr2 ece2 urg2 ack2 psh2 rst2 syn2 fin2 ->
  snd (netstack_tcp_pack h1 buffer) = snd (netstack_tcp_pack h2 buffer) ->
  source h1 = source h2 /\ destination h1 = destination h2
  /\ sequence h1 = sequence h2 /\ acknowledgment h1 = acknowledgment h2
  /\ control_bits h1 = control_bits h2
  /\ window_size h1 = window_size h2
  /\ urgent_pointer h1 = urgent_pointer h2.
Proof.
  intros Hflags Hshift Hok Hfit1 Hfit2 Hbits1 Hbits2 Hsame.
  assert (Hdec : decoded h1 = decoded h2).
  { pose proof (roundtrip_decoded h1 h1 buffer Hshift Hok) as H1.
    pose proof (roundtrip_decoded h2 h1 buffer Hshift Hok) as H2.
    unfold roundtrip in H1, H2.
    destruct (netstack_tcp_pack h1 buffer) as [[e1 t1] p1].
    destruct (netstack_tcp_pack h2 buffer) as [[e2 t2] p2].
    cbn [snd] in Hsame. subst p2. congruence. }
  rewrite (decoded_within_widths h1 _ _ _ _ _ _ _ _ _ Hflags Hfit1 Hbits1),
          (decoded_within_widths h2 _ _ _ _ _ _ _ _ _ Hflags Hfit2 Hbits2)
    in Hdec.
  inversion Hdec. repeat split; assumption.
Qed.

(** *** From bytes to a header and back *)

Lemma to_uchar_digits_16 (a b : byte) :
  let v := of_uchar a * 256 + of_uchar b in
  to_uchar (v / 256) = a /\ to_uchar v = b.
Proof.
  intros v. subst v. split.
  - rewrite div_digit. apply to_of_uchar.
  - apply to_uchar_low.
Qed.

Lemma to_uchar_digits_32 (a b c d : byte) :
  let v := ((of_uchar a * 256 + of_uchar b) * 256 + of_uchar c) * 256
           + of_uchar d in
  to_uchar (v / 16777216) = a /\ to_uchar (v / 65536) = b
  /\ to_uchar (v / 256) = c /\ to_uchar v = d.
Proof.
  intros v. subst v. repeat split.
  - change 16777216 with (256 * (256 * 256)).
    rewrite <- !Z.div_div by lia. rewrite !div_digit. apply to_of_uchar.
  - change 65536 with (256 * 256).
    rewrite <- Z.div_div by lia. rewrite !div_digit. apply to_uchar_low.
  - rewrite div_digit. apply to_uchar_low.
  - apply to_uchar_low.
Qed.

Lemma octet_12_back (b : byte) :
  to_uchar (0x50 + flag_if (test (of_uchar b) 0x01) 1)
  = to_uchar (0x50 + Z.land (of_uchar b) 0x01).
Proof. destruct b; reflexivity. Qed.

Lemma octet_13_back (b : byte) :
  to_uchar (flag_octet
              (test (of_uchar b) 0x80) (test (of_uchar b) 0x40)
              (test (of_uchar b) 0x20) (test (of_uchar b) 0x10)
              (test (of_uchar b) 0x08) (test (of_uchar b) 0x04)
              (test (of_uchar b) 0x02) (test (of_uchar b) 0x01))
  = b.
Proof. destruct b; reflexivity. Qed.

(** The wire bytes of the header read from 20 bytes are those bytes
    made canonical. *)
Lemma wire_bytes_read_header (front rest : list byte) :
  distinct_flags ->
  length front = 20%nat ->
  wire_bytes (read_header (front ++ rest)) = canonical front.
Proof.
  intros Hflags Hlen.
  do 20 (destruct front as [|? front]; [discriminate Hlen|]).
  destruct front; [|discriminate Hlen].
  unfold wire_bytes. rewrite read_header_flags.
  match goal with
  | |- context [test (combination ?a ?b ?c ?d ?e ?f ?g ?h ?i)] =>
      destruct (test_combination a b c d e f g h i Hflags)
        as (-> & -> & -> & -> & -> & -> & -> & -> & ->)
  end.
  unfold layout.
  destruct (read_header_fields
              ((b :: b0 :: b1 :: b2 :: b3 :: b4 :: b5 :: b6 :: b7 :: b8
                  :: b9 :: b10 :: b11 :: b12 :: b13 :: b14 :: b15 :: b16
                  :: b17 :: b18 :: []) ++ rest))
    as (-> & -> & -> & -> & -> & _ & ->).
  unfold load. cbn [app nth].
  repeat match goal with
    | |- context [to_uchar ((of_uchar ?x * 256 + of_uchar ?y) / 256)] =>
        destruct (to_uchar_digits_16 x y) as [-> ->]
    | |- context [to_uchar
                    ((((of_uchar ?x * 256 + of_uchar ?y) * 256
                       + of_uchar ?z) * 256 + of_uchar ?w) / 256)] =>
        destruct (to_uchar_digits_32 x y z w) as (-> & -> & -> & ->)
    end.
  rewrite octet_12_back, octet_13_back.
  reflexivity.
Qed.

(** X16: Bytes to header to bytes: unpacking a buffer of 20 bytes or more
    and packing the header obtained gives the first 20 bytes back,
    except that byte 12 is 0x50 plus its bit 0 and bytes 16 and 17 are
    zero (the data offset and the checksum received are not sent
    on). *)
Theorem unpack_then_pack (tcp : netstack_tcp)
  (received outgoing : netstack_buffer) :
  distinct_flags ->
  shift_inserts_front ->
  20 <= size received ->
  fst (netstack_buffer_shift outgoing 20) = 0 ->
  exists h packed,
    netstack_tcp_unpack tcp received = (NETSTACK_ERROR_NONE, h)
    /\ netstack_tcp_pack h outgoing = (NETSTACK_ERROR_NONE, h, packed)
    /\ data packed
       = canonical (firstn 20 (data received)) ++ data outgoing.
Proof.
  intros Hflags Hshift Hsize Hok.
  exists (read_header (data received)).
  exists (mk_buffer (wire_bytes (read_header (data received))
                     ++ data outgoing)).
  split; [|split].
  - unfold netstack_tcp_unpack. apply Z.ltb_ge in Hsize. rewrite Hsize.
    reflexivity.
  - apply pack_wire_bytes; assumption.
  - cbn [data]. f_equal.
    rewrite <- (firstn_skipn 20 (data received)) at 1.
    apply wire_bytes_read_header; [exact Hflags|].
    apply firstn_length_le. unfold size in Hsize. lia.
Qed.

Lemma canonical_wire_bytes (h : netstack_tcp) :
  canonical (wire_bytes h) = wire_bytes h.
Proof.
  unfold wire_bytes.
  destruct (test (control_bits h) NETSTACK_TCP_NS); reflexivity.
Qed.

Lemma wire_bytes_decoded (h : netstack_tcp) :
  distinct_flags -> wire_bytes (decoded h) = wire_bytes h.
Proof.
  intros Hflags.
  assert (Hr : read_header (wire_bytes h ++ []) = decoded h)
    by (unfold wire_bytes; apply read_header_layout).
  rewrite <- Hr.
  rewrite wire_bytes_read_header by (assumption || reflexivity).
  apply canonical_wire_bytes.
Qed.

(** X17: Packing what a round trip returned leaves the same bytes as
    packing the original header, even when the round trip has reduced
    fields of that header. *)
Theorem repack_same_bytes (h tcp : netstack_tcp)
  (buffer outgoing : netstack_buffer) :
  distinct_flags ->
  shift_inserts_front ->
  fst (netstack_buffer_shift buffer 20) = 0 ->
  fst (netstack_buffer_shift outgoing 20) = 0 ->
  snd (netstack_tcp_pack (snd (roundtrip h tcp buffer)) outgoing)
  = snd (netstack_tcp_pack h outgoing).
Proof.
  intros Hflags Hshift Hok Hok'.
  rewrite (roundtrip_decoded h tcp buffer) by assumption. cbn [snd].
  rewrite !pack_wire_bytes by assumption. cbn [snd].
  rewrite wire_bytes_decoded by assumption. reflexivity.
Qed.

(** X18: Layers stack: packing [inner] and then [outer] into the same
    buffer leaves the bytes of [outer], then those of [inner], then
    what the buffer held; unpack then reads [outer]. *)
Theorem pack_stacks_layers (inner outer tcp : netstack_tcp)
  (buffer : netstack_buffer) :
  shift_inserts_front ->
  fst (netstack_buffer_shift buffer 20) = 0 ->
  fst (netstack_buffer_shift (snd (netstack_tcp_pack inner buffer)) 20) = 0 ->
  exists first second,
    netstack_tcp_pack inner buffer = (NETSTACK_ERROR_NONE, inner, first)
    /\ netstack_tcp_pack outer first = (NETSTACK_ERROR_NONE, outer, second)
    /\ data second = wire_bytes outer ++ wire_bytes inner ++ data buffer
    /\ netstack_tcp_unpack tcp second = (NETSTACK_ERROR_NONE, decoded outer).
Proof.
  intros Hshift Hok Hok'.
  rewrite pack_wire_bytes in Hok' by assumption. cbn [snd] in Hok'.
  exists (mk_buffer (wire_bytes inner ++ data buffer)).
  exists (mk_buffer (wire_bytes outer ++ wire_bytes inner ++ data buffer)).
  split; [apply pack_wire_bytes; assumption|].
  split; [rewrite pack_wire_bytes by assumption; reflexivity|].
  split; [reflexivity | apply unpack_wire_bytes].
Qed.

End RoundTrips.

(** The further properties on the sample environment. *)

Lemma pack_prepends_witness :
  let roomy := bounded_shift 1500 in
  (@shift_inserts_front roomy
   /\ fst (@netstack_buffer_shift roomy (zero_buffer 3) 20) = 0)
  /\ exists packed,
       @netstack_tcp_pack wire_flags sample_errors roomy syn_ack_header
         (zero_buffer 3) = (0, syn_ack_header, packed)
       /\ size packed = 23
       /\ firstn 20 (data packed) = @wire_bytes wire_flags syn_ack_header
       /\ skipn 20 (data packed) = [Byte.x00; Byte.x00; Byte.x00].
Proof.
  intros roomy. split.
  - split; [apply bounded_shift_inserts_front | reflexivity].
  - apply (pack_prepends (TCP := wire_flags) (ERR := sample_errors)
             (BUF := roomy) syn_ack_header (zero_buffer 3)).
    + apply bounded_shift_inserts_front.
    + reflexivity.
Defined.

Lemma pack_big_endian_witness :
  let roomy := bounded_shift 1500 in
  let bytes := data (snd (@netstack_tcp_pack wire_flags sample_errors roomy
                            syn_ack_header empty_buffer)) in
  (@shift_inserts_front roomy
   /\ fst (@netstack_buffer_shift roomy empty_buffer 20) = 0
   /\ fits_wire syn_ack_header)
  /\ load bytes 0 * 256 + load bytes 1 = 80
  /\ load bytes 2 * 256 + load bytes 3 = 443
  /\ ((load bytes 4 * 256 + load bytes 5) * 256 + load bytes 6) * 256
     + load bytes 7 = 305419896
  /\ ((load bytes 8 * 256 + load bytes 9) * 256 + load bytes 10) * 256
     + load bytes 11 = 2271560481
  /\ load bytes 14 * 256 + load bytes 15 = 1234
  /\ load bytes 18 * 256 + load bytes 19 = 7.
Proof.
  intros roomy bytes.
  assert (Hfit : fits_wire syn_ack_header)
    by (unfold fits_wire, syn_ack_header; simpl; lia).
  split.
  - split; [apply bounded_shift_inserts_front|].
    split; [reflexivity | exact Hfit].
  - apply (pack_big_endian (TCP := wire_flags) (ERR := sample_errors)
             (BUF := roomy) syn_ack_header empty_buffer).
    + apply bounded_shift_inserts_front.
    + reflexivity.
    + exact Hfit.
Defined.

Lemma unpack_big_endian_witness :
  let buffer := mk_buffer (received_segment ++ [Byte.x01]) in
  20 <= size buffer
  /\ exists h,
       @netstack_tcp_unpack wire_flags sample_errors syn_ack_header buffer
       = (0, h)
       /\ source h = load (data buffer) 0 * 256 + load (data buffer) 1
       /\ destination h = load (data buffer) 2 * 256 + load (data buffer) 3
       /\ sequence h
          = ((load (data buffer) 4 * 256 + load (data buffer) 5) * 256
             + load (data buffer) 6) * 256 + load (data buffer) 7
       /\ acknowledgment h
          = ((load (data buffer) 8 * 256 + load (data buffer) 9) * 256
             + load (data buffer) 10) * 256 + load (data buffer) 11
       /\ data_offset h = load (data buffer) 12 / 16
       /\ window_size h = load (data buffer) 14 * 256 + load (data buffer) 15
       /\ checksum h = load (data buffer) 16 * 256 + load (data buffer) 17
       /\ urgent_pointer h
          = load (data buffer) 18 * 256 + load (data buffer) 19.
Proof.
  intros buffer. split; [unfold size; simpl; lia|].
  apply (unpack_big_endian (TCP := wire_flags) (ERR := sample_errors)
           syn_ack_header buffer).
  unfold size; simpl; lia.
Defined.

Lemma unpack_flags_from_bits_witness :
  let buffer := mk_buffer received_segment in
  20 <= size buffer
  /\ control_bits (snd (@netstack_tcp_unpack wire_flags sample_errors
                          syn_ack_header buffer))
     = @combination wire_flags true false false false true true false
         false false.
Proof.
  intros buffer. split; [unfold size; simpl; lia|].
  apply (unpack_flags_from_bits (TCP := wire_flags) (ERR := sample_errors)
           syn_ack_header buffer).
  unfold size; simpl; lia.
Defined.

Lemma unpack_reads_front_only_witness :
  length received_segment = 20%nat
  /\ @netstack_tcp_unpack wire_flags sample_errors syn_ack_header
       (mk_buffer (received_segment ++ [Byte.x01; Byte.x02]))
     = @netstack_tcp_unpack wire_flags sample_errors wide_port_header
         (mk_buffer (received_segment ++ [])).
Proof.
  split; [reflexivity|].
  apply (unpack_reads_front_only (TCP := wire_flags) (ERR := sample_errors)
           syn_ack_header wide_port_header received_segment
           [Byte.x01; Byte.x02] []).
  reflexivity.
Defined.

Lemma roundtrip_reduces_fields_witness :
  let roomy := bounded_shift 1500 in
  (@shift_inserts_front roomy
   /\ fst (@netstack_buffer_shift roomy empty_buffer 20) = 0)
  /\ exists h',
       @roundtrip wire_flags sample_errors roomy wide_window_header
         syn_ack_header empty_buffer = (0, h')
       /\ source h' = 0 /\ destination h' = 0
       /\ sequence h' = 0 /\ acknowledgment h' = 0
       /\ window_size h' = 70000 mod 65536
       /\ urgent_pointer h' = 0
       /\ control_bits h'
          = @combination wire_flags false false false false false false
              false false false
       /\ data_offset h' = 5
       /\ checksum h' = 0.
Proof.
  intros roomy. split.
  - split; [apply bounded_shift_inserts_front | reflexivity].
  - apply (roundtrip_reduces_fields (TCP := wire_flags)
             (ERR := sample_errors) (BUF := roomy)
             wide_window_header syn_ack_header empty_buffer).
    + apply bounded_shift_inserts_front.
    + reflexivity.
Defined.

Lemma roundtrip_idempotent_witness :
  let roomy := bounded_shift 1500 in
  (@distinct_flags wire_flags
   /\ @shift_inserts_front roomy
   /\ fst (@netstack_buffer_shift roomy empty_buffer 20) = 0
   /\ fst (@netstack_buffer_shift roomy (zero_buffer 3) 20) = 0)
  /\ @roundtrip wire_flags sample_errors roomy
       (snd (@roundtrip wire_flags sample_errors roomy wide_port_header
               syn_ack_header empty_buffer))
       wide_window_header (zero_buffer 3)
     = @roundtrip wire_flags sample_errors roomy wide_port_header
         syn_ack_header empty_buffer.
Proof.
  intros roomy. split.
  - split; [reflexivity|]. split; [apply bounded_shift_inserts_front|].
    split; reflexivity.
  - apply (roundtrip_idempotent (TCP := wire_flags) (ERR := sample_errors)
             (BUF := roomy) wide_port_header syn_ack_header
             wide_window_header empty_buffer (zero_buffer 3)).
    + reflexivity.
    + apply bounded_shift_inserts_front.
    + reflexivity.
    + reflexivity.
Defined.

Lemma pack_injective_within_widths_witness :
  let roomy := bounded_shift 1500 in
  let h1 := syn_ack_header in
  let h2 := mk_tcp 80 443 305419896 2271560481 5 0x012 1234 0 7 in
  (@distinct_flags wire_flags
   /\ @shift_inserts_front roomy
   /\ fst (@netstack_buffer_shift roomy empty_buffer 20) = 0
   /\ fits_wire h1 /\ fits_wire h2
   /\ control_bits h1
      = @combination wire_flags false false false false true false false
          true false
   /\ control_bits h2
      = @combination wire_flags false false false false true false false
          true false
   /\ snd (@netstack_tcp_pack wire_flags sample_errors roomy h1 empty_buffer)
      = snd (@netstack_tcp_pack wire_flags sample_errors roomy h2
               empty_buffer))
  /\ source h1 = source h2 /\ destination h1 = destination h2
  /\ sequence h1 = sequence h2 /\ acknowledgment h1 = acknowledgment h2
  /\ control_bits h1 = control_bits h2
  /\ window_size h1 = window_size h2
  /\ urgent_pointer h1 = urgent_pointer h2.
Proof.
  intros roomy h1 h2.
  assert (Hfit1 : fits_wire h1)
    by (unfold fits_wire, h1, syn_ack_header; simpl; lia).
  assert (Hfit2 : fits_wire h2) by (unfold fits_wire, h2; simpl; lia).
  assert (Hsame :
    snd (@netstack_tcp_pack wire_flags sample_errors roomy h1 empty_buffer)
    = snd (@netstack_tcp_pack wire_flags sample_errors roomy h2
             empty_buffer)) by (vm_compute; reflexivity).
  split.
  - split; [reflexivity|]. split; [apply bounded_shift_inserts_front|].
    split; [reflexivity|]. split; [exact Hfit1|]. split; [exact Hfit2|].
    split; [reflexivity|]. split; [reflexivity | exact Hsame].
  - apply (pack_injective_within_widths (TCP := wire_flags)
             (ERR := sample_errors) (BUF := roomy) h1 h2 empty_buffer
             false false false false true false false true false
             false false false false true false false true false).
    + reflexivity.
    + apply bounded_shift_inserts_front.
    + reflexivity.
    + exact Hfit1.
    + exact Hfit2.
    + reflexivity.
    + reflexivity.
    + exact Hsame.
Defined.

Lemma unpack_then_pack_witness :
  let roomy := bounded_shift 1500 in
  let received := mk_buffer (received_segment ++ [Byte.x01]) in
  (@distinct_flags wire_flags
   /\ @shift_inserts_front roomy
   /\ 20 <= size received
   /\ fst (@netstack_buffer_shift roomy (zero_buffer 2) 20) = 0)
  /\ exists h packed,
       @netstack_tcp_unpack wire_flags sample_errors syn_ack_header received
       = (0, h)
       /\ @netstack_tcp_pack wire_flags sample_errors roomy h (zero_buffer 2)
          = (0, h, packed)
       /\ data packed
          = canonical (firstn 20 (data received)) ++ [Byte.x00; Byte.x00].
Proof.
  intros roomy received. split.
  - split; [reflexivity|]. split; [apply bounded_shift_inserts_front|].
    split; [unfold size; simpl; lia | reflexivity].
  - apply (unpack_then_pack (TCP := wire_flags) (ERR := sample_errors)
             (BUF := roomy) syn_ack_header received (zero_buffer 2)).
    + reflexivity.
    + apply bounded_shift_inserts_front.
    + unfold size; simpl; lia.
    + reflexivity.
Defined.

Lemma repack_same_bytes_witness :
  let roomy := bounded_shift 1500 in
  (@distinct_flags wire_flags
   /\ @shift_inserts_front roomy
   /\ fst (@netstack_buffer_shift roomy empty_buffer 20) = 0
   /\ fst (@netstack_buffer_shift roomy (zero_buffer 2) 20) = 0)
  /\ snd (@netstack_tcp_pack wire_flags sample_errors roomy
            (snd (@roundtrip wire_flags sample_errors roomy
                    wide_port_header syn_ack_header empty_buffer))
            (zero_buffer 2))
     = snd (@netstack_tcp_pack wire_flags sample_errors roomy
              wide_port_header (zero_buffer 2)).
Proof.
  intros roomy. split.
  - split; [reflexivity|]. split; [apply bounded_shift_inserts_front|].
    split; reflexivity.
  - apply (repack_same_bytes (TCP := wire_flags) (ERR := sample_errors)
             (BUF := roomy) wide_port_header syn_ack_header empty_buffer
             (zero_buffer 2)).
    + reflexivity.
    + apply bounded_shift_inserts_front.
    + reflexivity.
    + reflexivity.
Defined.

Lemma pack_stacks_layers_witness :
  let roomy := bounded_shift 1500 in
  (@shift_inserts_front roomy
   /\ fst (@netstack_buffer_shift roomy (zero_buffer 2) 20) = 0
   /\ fst (@netstack_buffer_shift roomy
             (snd (@netstack_tcp_pack wire_flags sample_errors roomy
                     syn_ack_header (zero_buffer 2))) 20) = 0)
  /\ exists first second,
       @netstack_tcp_pack wire_flags sample_errors roomy syn_ack_header
         (zero_buffer 2) = (0, syn_ack_header, first)
       /\ @netstack_tcp_pack wire_flags sample_errors roomy wide_port_header
            first = (0, wide_port_header, second)
       /\ data second
          = @wire_bytes wire_flags wide_port_header
            ++ @wire_bytes wire_flags syn_ack_header
            ++ [Byte.x00; Byte.x00]
       /\ @netstack_tcp_unpack wire_flags sample_errors wide_window_header
            second
          = (0, @decoded wire_flags wide_port_header).
Proof.
  intros roomy. split.
  - split; [apply bounded_shift_inserts_front|].
    split; [reflexivity | vm_compute; reflexivity].
  - apply (pack_stacks_layers (TCP := wire_flags) (ERR := sample_errors)
             (BUF := roomy) syn_ack_header wide_port_header
             wide_window_header (zero_buffer 2)).
    + apply bounded_shift_inserts_front.
    + reflexivity.
    + vm_compute; reflexivity.
Defined.

(** ** From the setters to the wire *)

Section EndToEnd.

Context {TCP : tcp_h} {ERR : error_h} {BUF : buffer_h}.

Lemma accepted_range (str : list ascii) :
  rejected str = false -> 0 <= decimal_value (consulted str) <= 65535.
Proof.
  intros Hr. split; [|apply accepted_value; exact Hr].
  unfold rejected in Hr. apply orb_false_elim in Hr. destruct Hr as [Hd _].
  rewrite existsb_non_digit in Hd. apply negb_false_iff in Hd.
  apply decimal_value_nonneg. exact Hd.
Qed.

(** X19: A header initialised, then given its two ports by the setters from
    accepted strings, comes back from the wire with exactly these
    ports and the defaults of [netstack_tcp_init]: window 1, offset 5,
    no flag, everything else 0. *)
Theorem fresh_header_roundtrip (tcp0 tcp : netstack_tcp)
  (src dst : list ascii) (buffer : netstack_buffer) :
  shift_inserts_front ->
  fst (netstack_buffer_shift buffer 20) = 0 ->
  rejected src = false ->
  rejected dst = false ->
  let h := snd (netstack_tcp_set_destination
                  (snd (netstack_tcp_set_source (netstack_tcp_init tcp0) src))
                  dst) in
  roundtrip h tcp buffer
  = (NETSTACK_ERROR_NONE,
     mk_tcp (decimal_value (consulted src)) (decimal_value (consulted dst))
            0 0 5 0 1 0 0).
Proof.
  intros Hshift Hok Hsrc Hdst h.
  rewrite roundtrip_decoded by assumption. f_equal.
  subst h. unfold netstack_tcp_set_source, netstack_tcp_set_destination.
  rewrite !parse_port_spec, Hsrc. cbn [snd with_source destination].
  rewrite Hdst. cbn [snd].
  pose proof (accepted_range src Hsrc). pose proof (accepted_range dst Hdst).
  unfold decoded, with_destination, with_source, netstack_tcp_init.
  cbn [source destination sequence acknowledgment window_size
       urgent_pointer control_bits data_offset checksum].
  rewrite !(Z.mod_small (decimal_value _)) by lia.
  reflexivity.
Qed.

End EndToEnd.

Lemma fresh_header_roundtrip_witness :
  let roomy := bounded_shift 1500 in
  (@shift_inserts_front roomy
   /\ fst (@netstack_buffer_shift roomy empty_buffer 20) = 0
   /\ rejected (digits "8080") = false
   /\ rejected (digits "443") = false)
  /\ @roundtrip wire_flags sample_errors roomy
       (snd (@netstack_tcp_set_destination sample_errors
               (snd (@netstack_tcp_set_source sample_errors
                       (netstack_tcp_init wide_window_header)
                       (digits "8080")))
               (digits "443")))
       syn_ack_header empty_buffer
     = (0, mk_tcp 8080 443 0 0 5 0 1 0 0).
Proof.
  intros roomy. split.
  - split; [apply bounded_shift_inserts_front|].
    split; [reflexivity|]. split; reflexivity.
  - apply (fresh_header_roundtrip (TCP := wire_flags) (ERR := sample_errors)
             (BUF := roomy) wide_window_header syn_ack_header
             (digits "8080") (digits "443") empty_buffer).
    + apply bounded_shift_inserts_front.
    + reflexivity.
    + reflexivity.
    + reflexivity.
Defined.
